(** * Contact management app: a shallow embedding of [app.py]

    The application lists contacts from a relational table, validates their
    postal addresses against the SmartyStreets HTTP API and renders the list
    into a static HTML file.  Every function of [app.py] that the verified
    properties talk about is embedded below as a computation over an explicit
    world (database table, network log, file system, Python heap) and an
    explicit environment (configuration and the answers of the external
    collaborators).  Python exceptions are an explicit outcome.

    Logging calls have no influence on results and are left out, except that
    the subscripts evaluated inside a logged f-string are kept, since they
    can raise. *)

From Stdlib Require Import ZArith List Ascii.
From Stdlib Require Import Floats.SpecFloat.
From stdpp Require Import gmap strings list fin_maps.

Local Open Scope string_scope.

(** ** Python values *)

(** Heap addresses of mutable Python objects. *)
Definition loc := nat.

(** The values that flow through the program.  Scalars are immutable.
    [PList] and [PDict] are decoded JSON payloads (the SmartyStreets
    answer, the body of a request): the program passes them around and
    reads them, and never assigns into one, so they are held by value; a
    decoded dict has one entry per key.  [PRef] is a reference to a mutable
    object of the heap: the contact dicts and the lists of contacts, which
    the program does update in place. *)
#[warnings="-register-all"]
Inductive pyval : Type :=
| PNone
| PBool (b : bool)
| PInt (n : Z)
| PFloat (f : spec_float)
| PStr (s : string)
| PList (items : list pyval)
| PDict (entries : list (string * pyval))
| PRef (l : loc).

(** Mutable heap objects. *)
Inductive obj : Type :=
| ODict (fields : gmap string pyval)
| OList (items : list pyval).

(** ** Exceptions *)

(** The exception classes the handlers of [app.py] tell apart, and the
    built-in ones its operations raise.  All of them derive from
    [Exception]. *)
Inductive exc_class : Type :=
| RequestException   (* requests.RequestException and its subclasses *)
| Psycopg2Error      (* psycopg2.Error and its subclasses *)
| FileNotFoundError
| OSError            (* the other OSError subclasses *)
| TypeError
| KeyError
| AttributeError
| OtherException.

Record exn : Type := Exn { exn_class : exc_class; exn_msg : string }.

Definition is_request_exception (e : exn) : bool :=
  match exn_class e with RequestException => true | _ => false end.

Definition is_psycopg2_error (e : exn) : bool :=
  match exn_class e with Psycopg2Error => true | _ => false end.

Definition is_file_not_found (e : exn) : bool :=
  match exn_class e with FileNotFoundError => true | _ => false end.

(** The outcome of evaluating a piece of Python: a value or a raised
    exception. *)
Inductive res (A : Type) : Type :=
| Ret (a : A)
| Raise (e : exn).
Arguments Ret {A} a.
Arguments Raise {A} e.

(** ** The environment: configuration and external collaborators *)

(** [app.config], as far as the embedded functions read it.  The two
    credentials come from [os.getenv(..., None)]: a string or [None]. *)
Record config : Type := Config {
  SMARTY_AUTH_ID : option string;
  SMARTY_AUTH_TOKEN : option string;
  TEMPLATE_STYLE : string;
  TEMPLATES_DIR : string;
  OUTPUT_DIR : string
}.

(** What [requests.get(url, params=..., timeout=...)] is called with. *)
Record http_request : Type := HttpRequest {
  req_url : string;
  req_params : list (string * pyval);
  req_timeout : Z
}.

(** What [requests.get] does: it raises, or it returns a response with a
    status code, whose [.json()] in turn returns the decoded body or
    raises. *)
Inductive net_outcome : Type :=
| NetRaise (e : exn)
| NetResponse (status_code : Z) (json_body : res pyval).

(** Where a database call can fail. *)
Inductive db_stage : Type := AtConnect | AtExecute | AtCommit.

(** The file-system calls that can be refused by the operating system. *)
Inductive fs_op : Type :=
| OpMakedirs (path : string)
| OpRead (path : string)
| OpWrite (path : string).

Record env : Type := Env {
  cfg : config;
  (** the answer of the network to the n-th request of the run *)
  http_get : nat -> http_request -> net_outcome;
  (** the failure, if any, of the n-th database connection of the run *)
  db_fault : nat -> option (db_stage * exn);
  (** the refusal, if any, of a file-system call *)
  fs_fault : fs_op -> option exn;
  (** the n-th draw of the random generator *)
  random_draw : nat -> nat;
  (** Jinja: template text, the heap the bound values live in, and the
      keyword arguments of [render]; a black box that reads only these *)
  jinja_render : string -> gmap loc obj -> list (string * pyval) -> res string;
  (** [datetime.now().strftime('%Y-%m-%d %H:%M:%S')] *)
  clock_now : string
}.

(** ** The world *)

(** A row of [public.contacts]; [row_valid] is the column [valid]. *)
Record row : Type := Row {
  row_id : Z;
  row_first_name : pyval;
  row_last_name : pyval;
  row_address : pyval;
  row_city : pyval;
  row_state : pyval;
  row_zipcode : pyval;
  row_country : pyval;
  row_valid : pyval
}.

Record world : Type := World {
  (** the committed table, listed in the order of the fixed SELECT
      ([ORDER BY last_name, first_name]) *)
  db_rows : list row;
  (** connections attempted so far *)
  db_conns : nat;
  (** connections currently open *)
  db_open : nat;
  (** requests issued so far, oldest first *)
  http_log : list http_request;
  (** regular files and their text *)
  files : gmap string string;
  (** directories *)
  dirs : gset string;
  (** draws taken from the random generator *)
  rng_calls : nat;
  (** the Python heap *)
  heap : gmap loc obj
}.

Definition set_db_rows (x : list row) (w : world) : world :=
  World x (db_conns w) (db_open w) (http_log w) (files w) (dirs w)
        (rng_calls w) (heap w).
Definition set_db_conns (x : nat) (w : world) : world :=
  World (db_rows w) x (db_open w) (http_log w) (files w) (dirs w)
        (rng_calls w) (heap w).
Definition set_db_open (x : nat) (w : world) : world :=
  World (db_rows w) (db_conns w) x (http_log w) (files w) (dirs w)
        (rng_calls w) (heap w).
Definition set_http_log (x : list http_request) (w : world) : world :=
  World (db_rows w) (db_conns w) (db_open w) x (files w) (dirs w)
        (rng_calls w) (heap w).
Definition set_files (x : gmap string string) (w : world) : world :=
  World (db_rows w) (db_conns w) (db_open w) (http_log w) x (dirs w)
        (rng_calls w) (heap w).
Definition set_dirs (x : gset string) (w : world) : world :=
  World (db_rows w) (db_conns w) (db_open w) (http_log w) (files w) x
        (rng_calls w) (heap w).
Definition set_rng_calls (x : nat) (w : world) : world :=
  World (db_rows w) (db_conns w) (db_open w) (http_log w) (files w) (dirs w)
        x (heap w).
Definition set_heap (x : gmap loc obj) (w : world) : world :=
  World (db_rows w) (db_conns w) (db_open w) (http_log w) (files w) (dirs w)
        (rng_calls w) x.

(** ** Computations *)

(** A piece of Python reads the environment, transforms the world and
    returns or raises. *)
Definition M (A : Type) : Type := env -> world -> res A * world.

Definition ret {A} (a : A) : M A := fun _ w => (Ret a, w).

Definition raise {A} (e : exn) : M A := fun _ w => (Raise e, w).

Definition bind {A B} (m : M A) (k : A -> M B) : M B :=
  fun e w =>
    match m e w with
    | (Ret a, w') => k a e w'
    | (Raise x, w') => (Raise x, w')
    end.

Notation "'let*' x ':=' m 'in' k" := (bind m (fun x => k))
  (at level 10, x name, m at level 100, k at level 200).
Notation "'let*' ' p ':=' m 'in' k" := (bind m (fun x => match x with p => k end))
  (at level 10, p pattern, m at level 100, k at level 200).
Notation "m '>>' k" := (bind m (fun _ => k))
  (at level 100, k at level 200, right associativity).

Definition ask : M env := fun e w => (Ret e, w).
Definition get : M world := fun _ w => (Ret w, w).
Definition modify (f : world -> world) : M unit := fun _ w => (Ret tt, f w).

(** [try: body except <classes>: handler]: the handler runs for the
    exceptions [catches] selects, the others propagate. *)
Definition try_except {A} (body : M A) (catches : exn -> bool)
    (handler : exn -> M A) : M A :=
  fun e w =>
    match body e w with
    | (Ret a, w') => (Ret a, w')
    | (Raise x, w') => if catches x then handler x e w' else (Raise x, w')
    end.

(** [try: body finally: cleanup]. *)
Definition try_finally {A} (body : M A) (cleanup : M unit) : M A :=
  fun e w =>
    match body e w with
    | (Ret a, w') =>
        match cleanup e w' with
        | (Ret _, w'') => (Ret a, w'')
        | (Raise x, w'') => (Raise x, w'')
        end
    | (Raise x, w') =>
        match cleanup e w' with
        | (Ret _, w'') => (Raise x, w'')
        | (Raise y, w'') => (Raise y, w'')
        end
    end.

(** [for x in xs: body x]. *)
Fixpoint for_each {A} (xs : list A) (body : A -> M unit) : M unit :=
  match xs with
  | [] => ret tt
  | x :: rest => body x >> for_each rest body
  end.

(** ** Python primitives *)

Definition type_error {A} (msg : string) : M A := raise (Exn TypeError msg).

Definition float_is_zero (f : spec_float) : bool :=
  match f with S754_zero _ => true | _ => false end.

(** Truth value of a Python value ([bool(v)]): [None], [False], zero, and
    the empty string, list and dict are false. *)
Definition py_truthy (h : gmap loc obj) (v : pyval) : bool :=
  match v with
  | PNone => false
  | PBool b => b
  | PInt n => negb (n =? 0)%Z
  | PFloat f => negb (float_is_zero f)
  | PStr s => negb (String.eqb s "")
  | PList items => match items with [] => false | _ => true end
  | PDict entries => match entries with [] => false | _ => true end
  | PRef l =>
      match h !! l with
      | Some (OList []) => false
      | Some (OList _) => true
      | Some (ODict fields) => negb (bool_decide (fields = ∅))
      | None => true
      end
  end.

Definition truthy (v : pyval) : M bool :=
  fun _ w => (Ret (py_truthy (heap w) v), w).

(** [len(v)]. *)
Definition py_len (v : pyval) : M nat :=
  fun _ w =>
    match v with
    | PStr s => (Ret (String.length s), w)
    | PList items => (Ret (length items), w)
    | PDict entries => (Ret (length entries), w)
    | PRef l =>
        match heap w !! l with
        | Some (OList items) => (Ret (length items), w)
        | Some (ODict fields) => (Ret (size fields), w)
        | None => (Raise (Exn TypeError "object has no len()"), w)
        end
    | _ => (Raise (Exn TypeError "object has no len()"), w)
    end.

(** First entry for a key of a by-value dict. *)
Fixpoint assoc_get {V} (key : string) (entries : list (string * V)) : option V :=
  match entries with
  | [] => None
  | (k, v) :: rest => if String.eqb k key then Some v else assoc_get key rest
  end.

(** [d.get(key, default)]: only dicts have the method. *)
Definition py_get (d : pyval) (key : string) (default : pyval) : M pyval :=
  fun _ w =>
    match d with
    | PDict entries =>
        (Ret (match assoc_get key entries with Some v => v | None => default end), w)
    | PRef l =>
        match heap w !! l with
        | Some (ODict fields) =>
            (Ret (match fields !! key with Some v => v | None => default end), w)
        | _ => (Raise (Exn AttributeError "object has no attribute 'get'"), w)
        end
    | _ => (Raise (Exn AttributeError "object has no attribute 'get'"), w)
    end.

(** [d[key]] for a string key: [KeyError] on a dict without the key,
    [TypeError] on everything that is not a dict. *)
Definition py_getitem (d : pyval) (key : string) : M pyval :=
  fun _ w =>
    match d with
    | PDict entries =>
        match assoc_get key entries with
        | Some v => (Ret v, w)
        | None => (Raise (Exn KeyError key), w)
        end
    | PRef l =>
        match heap w !! l with
        | Some (ODict fields) =>
            match fields !! key with
            | Some v => (Ret v, w)
            | None => (Raise (Exn KeyError key), w)
            end
        | _ => (Raise (Exn TypeError "indices must be integers"), w)
        end
    | _ => (Raise (Exn TypeError "object is not subscriptable"), w)
    end.

(** [d[key] = v] for a string key, in place on a dict of the heap.  No
    code path assigns into a by-value payload; as for the values that do
    not support item assignment, the model raises [TypeError] there. *)
Definition py_setitem (d : pyval) (key : string) (v : pyval) : M unit :=
  fun _ w =>
    match d with
    | PRef l =>
        match heap w !! l with
        | Some (ODict fields) =>
            (Ret tt, set_heap (<[l := ODict (<[key := v]> fields)]> (heap w)) w)
        | _ => (Raise (Exn TypeError "indices must be integers"), w)
        end
    | _ => (Raise (Exn TypeError "object does not support item assignment"), w)
    end.

Fixpoint string_chars (s : string) : list pyval :=
  match s with
  | EmptyString => []
  | String c rest => PStr (String c EmptyString) :: string_chars rest
  end.

(** The items a [for] loop over [v] visits.  The loops of [app.py] never
    resize the list they iterate, so the items are those at loop entry. *)
Definition py_iter (v : pyval) : M (list pyval) :=
  fun _ w =>
    match v with
    | PStr s => (Ret (string_chars s), w)
    | PList items => (Ret items, w)
    | PDict entries => (Ret (map (fun kv => PStr (fst kv)) entries), w)
    | PRef l =>
        match heap w !! l with
        | Some (OList items) => (Ret items, w)
        | Some (ODict fields) =>
            (Ret (map (fun kv => PStr (fst kv)) (map_to_list fields)), w)
        | None => (Raise (Exn TypeError "object is not iterable"), w)
        end
    | _ => (Raise (Exn TypeError "object is not iterable"), w)
    end.

(** A new object ([[]], [dict(...)]) at an unused address. *)
Definition alloc (o : obj) : M pyval :=
  fun _ w =>
    let l := fresh (dom (heap w)) in
    (Ret (PRef l), set_heap (<[l := o]> (heap w)) w).

(** [xs.append(v)]. *)
Definition py_append (xs : pyval) (v : pyval) : M unit :=
  fun _ w =>
    match xs with
    | PRef l =>
        match heap w !! l with
        | Some (OList items) =>
            (Ret tt, set_heap (<[l := OList (items ++ [v])]> (heap w)) w)
        | _ => (Raise (Exn AttributeError "object has no attribute 'append'"), w)
        end
    | _ => (Raise (Exn AttributeError "object has no attribute 'append'"), w)
    end.

(** [==] against a string literal: only that very string is equal. *)
Definition py_eq_str (v : pyval) (s : string) : bool :=
  match v with PStr t => String.eqb t s | _ => false end.

(** ** Paths and files *)

Definition starts_with_slash (s : string) : bool :=
  match s with
  | String c _ => Ascii.eqb c "/"%char
  | EmptyString => false
  end.

Fixpoint ends_with_slash (s : string) : bool :=
  match s with
  | EmptyString => false
  | String c EmptyString => Ascii.eqb c "/"%char
  | String _ rest => ends_with_slash rest
  end.

(** [os.path.join(a, b)] (POSIX) for two strings. *)
Definition path_join (a b : string) : string :=
  if starts_with_slash b then b
  else if String.eqb a "" || ends_with_slash a then a ++ b
  else a ++ "/" ++ b.

(** [os.path.join(a, b)] where [b] is any value: only a string joins. *)
Definition os_path_join (a : string) (b : pyval) : M string :=
  match b with
  | PStr s => ret (path_join a s)
  | _ => type_error "expected str, bytes or os.PathLike object"
  end.

Definition fs_exists (w : world) (path : string) : bool :=
  bool_decide (is_Some (files w !! path)) || bool_decide (path ∈ dirs w).

(** [os.path.exists(path)]. *)
Definition os_path_exists (path : string) : M bool :=
  fun _ w => (Ret (fs_exists w path), w).

(** [os.makedirs(path, exist_ok=True)]. *)
Definition os_makedirs (path : string) : M unit :=
  fun e w =>
    match fs_fault e (OpMakedirs path) with
    | Some x => (Raise x, w)
    | None =>
        match files w !! path with
        | Some _ => (Raise (Exn OSError ("File exists: " ++ path)), w)
        | None => (Ret tt, set_dirs ({[path]} ∪ dirs w) w)
        end
    end.

(** [with open(path, 'r', encoding='utf-8') as f: return f.read()]. *)
Definition read_text_file (path : string) : M string :=
  fun e w =>
    match fs_fault e (OpRead path) with
    | Some x => (Raise x, w)
    | None =>
        match files w !! path with
        | Some text => (Ret text, w)
        | None =>
            if bool_decide (path ∈ dirs w)
            then (Raise (Exn OSError ("Is a directory: " ++ path)), w)
            else (Raise (Exn FileNotFoundError ("No such file or directory: " ++ path)), w)
        end
    end.

(** [with open(path, 'w', encoding='utf-8') as f: f.write(text)]: creates
    or overwrites. *)
Definition write_text_file (path : string) (text : string) : M unit :=
  fun e w =>
    match fs_fault e (OpWrite path) with
    | Some x => (Raise x, w)
    | None =>
        if bool_decide (path ∈ dirs w)
        then (Raise (Exn OSError ("Is a directory: " ++ path)), w)
        else (Ret tt, set_files (<[path := text]> (files w)) w)
    end.

(** ** The network *)

(** [requests.get(url, params=params, timeout=timeout)]: the request is
    issued (and recorded) and the network answers. *)
Definition requests_get (url : string) (params : list (string * pyval))
    (timeout : Z) : M (Z * res pyval) :=
  fun e w =>
    let request := HttpRequest url params timeout in
    let w' := set_http_log (http_log w ++ [request]) w in
    match http_get e (length (http_log w)) request with
    | NetRaise x => (Raise x, w')
    | NetResponse status body => (Ret (status, body), w')
    end.

(** [response.json()]. *)
Definition response_json (response : Z * res pyval) : M pyval :=
  fun _ w => (snd response, w).

Definition smarty_url : string :=
  "https://us-street.api.smartystreets.com/street-address".

Definition smarty_params (address city state zipcode auth_id auth_token : pyval)
    : list (string * pyval) :=
  [("auth-id", auth_id); ("auth-token", auth_token); ("street", address);
   ("city", city); ("state", state); ("zipcode", zipcode)].

(** [validate_address_smarty]. *)
Definition validate_address_smarty
    (address city state zipcode auth_id auth_token : pyval) : M pyval :=
  let* has_id := truthy auth_id in
  let* missing :=
    (if negb has_id then ret true
     else let* has_token := truthy auth_token in ret (negb has_token)) in
  if missing then ret (PStr "Not Validated")
  else
    try_except
      (let params := smarty_params address city state zipcode auth_id auth_token in
       let* response := requests_get smarty_url params 10 in
       if (fst response =? 200)%Z then
         let* data := response_json response in
         let* nonempty := truthy data in
         let* matched :=
           (if nonempty then let* n := py_len data in ret (0 <? n)%nat
            else ret false) in
         if matched then ret data else ret (PBool false)
       else ret (PStr "API Error"))
      is_request_exception
      (fun _ => ret (PStr "Validation Failed")).

(** ** The contact store *)

(** [psycopg2.connect(...)]. *)
Definition psycopg2_connect : M nat :=
  fun e w =>
    let conn := db_conns w in
    let w' := set_db_conns (S conn) w in
    match db_fault e conn with
    | Some (AtConnect, x) => (Raise x, w')
    | _ => (Ret conn, set_db_open (S (db_open w')) w')
    end.

(** [get_db_connection]: a [psycopg2.Error] is logged and raised again. *)
Definition get_db_connection : M nat :=
  try_except psycopg2_connect is_psycopg2_error (fun x => raise x).

(** [cursor.execute(...)] on connection [conn]. *)
Definition cursor_execute (conn : nat) : M unit :=
  fun e w =>
    match db_fault e conn with
    | Some (AtExecute, x) => (Raise x, w)
    | _ => (Ret tt, w)
    end.

(** [conn.commit()]: the table becomes [pending]. *)
Definition conn_commit (conn : nat) (pending : list row) : M unit :=
  fun e w =>
    match db_fault e conn with
    | Some (AtCommit, x) => (Raise x, w)
    | _ => (Ret tt, set_db_rows pending w)
    end.

(** [conn.close()]. *)
Definition conn_close : M unit :=
  modify (fun w => set_db_open (pred (db_open w)) w).

(** The column names of [cursor.description] for the fixed SELECT. *)
Definition columns : list string :=
  ["id"; "first_name"; "last_name"; "address"; "city"; "state"; "zipcode";
   "country"; "valid"].

Definition row_tuple (r : row) : list pyval :=
  [PInt (row_id r); row_first_name r; row_last_name r; row_address r;
   row_city r; row_state r; row_zipcode r; row_country r; row_valid r].

(** [dict(zip(columns, row))]. *)
Definition row_dict (r : row) : gmap string pyval :=
  list_to_map (zip columns (row_tuple r)).

(** One turn of the loop of [fetch_contacts]. *)
Definition collect_row (contacts : pyval) (r : row) : M unit :=
  let* contact := alloc (ODict (row_dict r)) in
  py_append contacts contact.

(** [fetch_contacts]; [db_rows w] is what [cursor.fetchall()] gives. *)
Definition fetch_contacts : M pyval :=
  let* conn := get_db_connection in
  try_finally
    (cursor_execute conn >>
     let* w := get in
     let* contacts := alloc (OList []) in
     for_each (db_rows w) (collect_row contacts) >>
     ret contacts)
    conn_close.

(** The rows [WHERE id = %s] selects.  The ids the program passes are the
    integers it read from the table. *)
Definition id_matches (contact_id : pyval) (r : row) : bool :=
  match contact_id with
  | PInt n => (n =? row_id r)%Z
  | _ => false
  end.

Definition with_valid (status : pyval) (r : row) : row :=
  Row (row_id r) (row_first_name r) (row_last_name r) (row_address r)
      (row_city r) (row_state r) (row_zipcode r) (row_country r) status.

(** [UPDATE contacts SET valid = %s WHERE id = %s]. *)
Definition sql_update (contact_id status : pyval) (rows : list row) : list row :=
  map (fun r => if id_matches contact_id r then with_valid status r else r) rows.

(** [update_validation_status]. *)
Definition update_validation_status (contact_id validation_status : pyval)
    : M unit :=
  let* conn := get_db_connection in
  try_finally
    (cursor_execute conn >>
     let* w := get in
     conn_commit conn (sql_update contact_id validation_status (db_rows w)))
    conn_close.

(** ** Templates *)

(** [get_template_files], in insertion order. *)
Definition get_template_files : list (string * string) :=
  [("modern", "modern_template.html"); ("dark", "dark_template.html");
   ("neon", "neon_template.html"); ("retro", "retro_template.html")].

(** [random.choice(xs)]. *)
Definition random_choice (xs : list string) : M string :=
  fun e w =>
    let w' := set_rng_calls (S (rng_calls w)) w in
    match xs !! (random_draw e (rng_calls w) mod length xs)%nat with
    | Some x => (Ret x, w')
    | None => (Raise (Exn OtherException "Cannot choose from an empty sequence"), w')
    end.

(** [select_template_style]. *)
Definition select_template_style (template_style : pyval) : M pyval :=
  let template_files := get_template_files in
  if py_eq_str template_style "random" then
    let* selected_style := random_choice (map fst template_files) in
    ret (PStr selected_style)
  else ret template_style.

(** [template_files[key]] for a string literal key. *)
Definition str_dict_getitem (d : list (string * string)) (key : string)
    : M string :=
  match assoc_get key d with
  | Some v => ret v
  | None => raise (Exn KeyError key)
  end.

(** [template_files.get(key, default)]: lists and dicts cannot be hashed;
    a key that is not a string equals none of the names. *)
Definition str_dict_get (d : list (string * string)) (key : pyval)
    (default : string) : M string :=
  match key with
  | PStr s => ret (match assoc_get s d with Some v => v | None => default end)
  | PList _ | PDict _ | PRef _ => type_error "unhashable type"
  | _ => ret default
  end.

(** [load_template]. *)
Definition load_template (template_style : pyval) (templates_dir : string)
    : M string :=
  let template_files := get_template_files in
  let* fallback := str_dict_getitem template_files "modern" in
  let* template_filename := str_dict_get template_files template_style fallback in
  let template_path := path_join templates_dir template_filename in
  let* found := os_path_exists template_path in
  if negb found then
    raise (Exn FileNotFoundError ("Template file not found: " ++ template_path))
  else read_text_file template_path.

(** [get_validation_attributes]. *)
Definition get_validation_attributes (valid_status : pyval)
    : string * string * string :=
  if py_eq_str valid_status "valid" then
    ("valid", "valid-badge", "Valid Address")
  else if py_eq_str valid_status "invalid" then
    ("invalid", "invalid-badge", "Invalid Address")
  else ("not-validated", "not-validated-badge", "Not Validated").

(** One turn of the loop of [prepare_contact_data]. *)
Definition style_contact (contact : pyval) : M unit :=
  let* valid_status := py_get contact "valid" (PStr "") in
  let '(css_class, badge_class, validation_text) :=
    get_validation_attributes valid_status in
  py_setitem contact "css_class" (PStr css_class) >>
  py_setitem contact "badge_class" (PStr badge_class) >>
  py_setitem contact "validation_text" (PStr validation_text).

(** [prepare_contact_data]. *)
Definition prepare_contact_data (contacts : pyval) : M pyval :=
  let* items := py_iter contacts in
  for_each items style_contact >>
  ret contacts.

(** [prepare_template_data]: the keyword arguments of the rendering. *)
Definition prepare_template_data (contacts : pyval)
    : M (list (string * pyval)) :=
  let* prepared_contacts := prepare_contact_data contacts in
  let* e := ask in
  ret [("contacts", prepared_contacts); ("timestamp", PStr (clock_now e))].

(** [render_custom_template]. *)
Definition render_custom_template (template_content : string)
    (template_data : list (string * pyval)) : M string :=
  fun e w => (jinja_render e template_content (heap w) template_data, w).

(** [generate_html_file]. *)
Definition generate_html_file (contacts template_style output_filename : pyval)
    : M (string * pyval) :=
  let* e := ask in
  os_makedirs (OUTPUT_DIR (cfg e)) >>
  let* selected_style := select_template_style template_style in
  let* template_content := load_template selected_style (TEMPLATES_DIR (cfg e)) in
  let* template_data := prepare_template_data contacts in
  let* html_content := render_custom_template template_content template_data in
  let* output_path := os_path_join (OUTPUT_DIR (cfg e)) output_filename in
  write_text_file output_path html_content >>
  ret (output_path, selected_style).

(** ** The HTTP endpoints *)

(** What a view returns: a JSON body and a status code.  References in a
    body are serialised when the view returns, so they are read in the
    heap of the final world. *)
Record response : Type := Response { resp_body : pyval; resp_status : Z }.

Definition jsonify (entries : list (string * pyval)) : pyval := PDict entries.

(** [app.config[...]] for a value that came from [os.getenv(..., None)]. *)
Definition config_value (o : option string) : pyval :=
  match o with Some s => PStr s | None => PNone end.

(** [request.get_json()], for a request on which it gives [outcome]. *)
Definition request_get_json (outcome : res pyval) : M pyval :=
  fun _ w => (outcome, w).

(** The text an f-string gives for a string.  The one f-string whose text
    the model keeps formats the output filename after [os.path.join] has
    accepted it, and that accepts strings only. *)
Definition format_value (v : pyval) : string :=
  match v with PStr s => s | _ => "" end.

(** The decorator [handle_db_errors]. *)
Definition handle_db_errors (f : M response) : M response :=
  try_except f (fun _ => true)
    (fun x =>
       if is_psycopg2_error x then
         ret (Response (jsonify [("error", PStr "Database connection failed")]) 500)
       else
         ret (Response (jsonify [("error", PStr "Internal server error")]) 500)).

(** One turn of the loop of [api_validate_addresses]. *)
Definition validate_contact (validated_contacts contact : pyval) : M unit :=
  let* e := ask in
  let* address := py_getitem contact "address" in
  let* city := py_getitem contact "city" in
  let* state := py_getitem contact "state" in
  let* zipcode := py_getitem contact "zipcode" in
  let* validation_result :=
    validate_address_smarty address city state zipcode
      (config_value (SMARTY_AUTH_ID (cfg e)))
      (config_value (SMARTY_AUTH_TOKEN (cfg e))) in
  let* contact_id := py_getitem contact "id" in
  update_validation_status contact_id validation_result >>
  py_setitem contact "valid" validation_result >>
  py_append validated_contacts contact >>
  let* _ := py_getitem contact "first_name" in
  let* _ := py_getitem contact "last_name" in
  ret tt.

(** The body of [api_validate_addresses], before decoration. *)
Definition api_validate_addresses_body : M response :=
  let* contacts := fetch_contacts in
  let* any := truthy contacts in
  if negb any then
    ret (Response (jsonify [("error", PStr "No contacts found")]) 404)
  else
    let* validated_contacts := alloc (OList []) in
    let* items := py_iter contacts in
    for_each items (validate_contact validated_contacts) >>
    let* count := py_len validated_contacts in
    ret (Response
           (jsonify [("message", PStr "Address validation completed");
                     ("contacts", validated_contacts);
                     ("count", PInt (Z.of_nat count))])
           200).

(** [POST /api/validate]. *)
Definition api_validate_addresses : M response :=
  handle_db_errors api_validate_addresses_body.

(** [api_generate_html] once style and filename are resolved: from
    [contacts = fetch_contacts()] to the end of the view. *)
Definition api_generate_html_resolved (template_style output_filename : pyval)
    : M response :=
  let* contacts := fetch_contacts in
  let* any := truthy contacts in
  if negb any then
    ret (Response (jsonify [("error", PStr "No contacts found")]) 404)
  else
    try_except
      (let* '(output_path, selected_style) :=
         generate_html_file contacts template_style output_filename in
       let* count := py_len contacts in
       ret (Response
              (jsonify [("message", PStr "HTML file generated successfully");
                        ("output_path", PStr output_path);
                        ("template_style", selected_style);
                        ("contacts_count", PInt (Z.of_nat count));
                        ("download_url",
                         PStr ("/download/" ++ format_value output_filename))])
              200))
      is_file_not_found
      (fun x => ret (Response (jsonify [("error", PStr (exn_msg x))]) 400)).

(** The body of [api_generate_html], before decoration, serving a request
    on which [request.get_json()] gives [request_json]. *)
Definition api_generate_html_body (request_json : res pyval) : M response :=
  let* e := ask in
  let* body := request_get_json request_json in
  let* given := truthy body in
  let data := if given then body else PDict [] in
  let* template_style :=
    py_get data "template_style" (PStr (TEMPLATE_STYLE (cfg e))) in
  let* output_filename := py_get data "output_filename" (PStr "index.html") in
  api_generate_html_resolved template_style output_filename.

(** [POST /api/generate]. *)
Definition api_generate_html (request_json : res pyval) : M response :=
  handle_db_errors (api_generate_html_body request_json).

(** ** Sample inputs *)

Module Sample.

Definition config0 : config :=
  Config (Some "id") (Some "token") "random" "templates" "static/generated".

Definition ada : row :=
  Row 1 (PStr "Ada") (PStr "Byron") (PStr "12 St James Sq") (PStr "London")
      (PStr "VA") (PStr "22902") (PStr "US") PNone.

Definition bob : row :=
  Row 2 (PStr "Bob") (PStr "Carr") (PStr "119 Burnet Way")
      (PStr "Charlottesville") (PStr "VA") (PStr "22902") (PStr "US") PNone.

Definition cyd : row :=
  Row 3 (PStr "Cyd") (PStr "Dunn") (PStr "1 Main St") (PStr "Richmond")
      (PStr "VA") (PStr "23219") (PStr "US") (PStr "valid").

Definition timeout_error : exn := Exn RequestException "Read timed out.".

(** An environment where nothing fails: every address has one match. *)
Definition env0 : env :=
  Env config0
      (fun _ _ => NetResponse 200 (Ret (PList [PDict [("input_index", PInt 0)]])))
      (fun _ => None)
      (fun _ => None)
      (fun n => n)
      (fun template _ _ => Ret ("<html>" ++ template ++ "</html>"))
      "2024-01-01 00:00:00".

(** The service answers 200 with a body that is not an array. *)
Definition env_number_body : env :=
  Env config0
      (fun _ _ => NetResponse 200 (Ret (PInt 5)))
      (fun _ => None)
      (fun _ => None)
      (fun n => n)
      (fun template _ _ => Ret ("<html>" ++ template ++ "</html>"))
      "2024-01-01 00:00:00".

Definition templates0 : gmap string string :=
  {[ "templates/modern_template.html" := "modern";
     "templates/dark_template.html" := "dark";
     "templates/neon_template.html" := "neon";
     "templates/retro_template.html" := "retro" ]}.

Definition world0 (rows : list row) : world :=
  World rows 0 0 [] templates0 ∅ 0 ∅.

(** A heap holding the list [[ada, cyd]] at address 0. *)
Definition heap1 : gmap loc obj :=
  {[ 0%nat := OList [PRef 1; PRef 2];
     1%nat := ODict (row_dict ada);
     2%nat := ODict (row_dict cyd) ]}.

Definition world1 : world :=
  World [ada; cyd] 0 0 [] templates0 ∅ 0 heap1.

(** The second request of the run times out. *)
Definition env_timeout_second : env :=
  Env config0
      (fun n _ =>
         if (n =? 1)%nat then NetRaise timeout_error
         else NetResponse 200 (Ret (PList [PDict [("input_index", PInt 0)]])))
      (fun _ => None)
      (fun _ => None)
      (fun n => n)
      (fun template _ _ => Ret ("<html>" ++ template ++ "</html>"))
      "2024-01-01 00:00:00".


(** A world whose templates directory is empty. *)
Definition world_no_templates : world :=
  World [ada; bob] 0 0 [] ∅ ∅ 0 ∅.

(** A style name outside the fixed set. *)
Definition bogus : string := "bogus-style".

End Sample.

(** ** Vocabulary of the properties *)

(** The request [validate_address_smarty] sends. *)
Definition smarty_request
    (address city state zipcode auth_id auth_token : pyval) : http_request :=
  HttpRequest smarty_url
    (smarty_params address city state zipcode auth_id auth_token) 10.

(** The four documented outcomes of a validation: what the network
    answered, and what the function gives back for it. *)
Definition four_cases (answer : net_outcome) (result : res pyval) : Prop :=
  (exists x items, answer = NetResponse 200 (Ret (PList (x :: items)))
                   /\ result = Ret (PList (x :: items)))
  \/ (answer = NetResponse 200 (Ret (PList [])) /\ result = Ret (PBool false))
  \/ (exists status body, answer = NetResponse status body /\ status <> 200%Z
                          /\ result = Ret (PStr "API Error"))
  \/ (exists x, answer = NetRaise x /\ is_request_exception x = true
                /\ result = Ret (PStr "Validation Failed")).

(** The answers the validation service is documented to give: a transport
    failure, or a response whose body, when the status is 200, decodes to
    a JSON array. *)
Definition documented_answer (answer : net_outcome) : Prop :=
  match answer with
  | NetRaise x => is_request_exception x = true
  | NetResponse status body =>
      status = 200%Z -> exists items, body = Ret (PList items)
  end.

(** The failure, if any, that connection [conn] meets while reading
    (a commit is never attempted) and while writing. *)
Definition read_fault (e : env) (conn : nat) : option exn :=
  match db_fault e conn with
  | Some (AtConnect, x) | Some (AtExecute, x) => Some x
  | _ => None
  end.

Definition write_fault (e : env) (conn : nat) : option exn :=
  match db_fault e conn with
  | Some (_, x) => Some x
  | None => None
  end.

(** The renderer of the design: style selection, template loading, data
    binding and evaluation, as [generate_html_file] chains them. *)
Definition render (style : pyval) (templates_dir : string) (contacts : pyval)
    : M string :=
  let* selected_style := select_template_style style in
  let* template_content := load_template selected_style templates_dir in
  let* template_data := prepare_template_data contacts in
  render_custom_template template_content template_data.

(** The fixed set of style names. *)
Definition style_names : list string := map fst get_template_files.

(** A style name outside the fixed set that is not "random" either. *)
Definition unrecognized (s : string) : Prop :=
  (s ∉ style_names) /\ s <> "random".

(** A contact record of heap [h]: a reference to a dict. *)
Definition is_contact (h : gmap loc obj) (v : pyval) : Prop :=
  exists l fields, v = PRef l /\ h !! l = Some (ODict fields).

(** A list of contact records of heap [h], at address [lc]. *)
Definition contact_list (h : gmap loc obj) (lc : loc) (items : list pyval)
    : Prop :=
  h !! lc = Some (OList items) /\ Forall (is_contact h) items.

(** [contact.get('valid', '')]. *)
Definition status_of (fields : gmap string pyval) : pyval :=
  match fields !! "valid" with Some v => v | None => PStr "" end.

(** The three display keys. *)
Definition display_keys : list string :=
  ["css_class"; "badge_class"; "validation_text"].

(** A contact dict after the three assignments of [prepare_contact_data]. *)
Definition with_attributes (fields : gmap string pyval) : gmap string pyval :=
  let '(css_class, badge_class, validation_text) :=
    get_validation_attributes (status_of fields) in
  <["validation_text" := PStr validation_text]>
    (<["badge_class" := PStr badge_class]>
       (<["css_class" := PStr css_class]> fields)).

(** The heap after one turn of the loop of [prepare_contact_data]. *)
Definition restyle (h : gmap loc obj) (v : pyval) : gmap loc obj :=
  match v with
  | PRef l =>
      match h !! l with
      | Some (ODict fields) => <[l := ODict (with_attributes fields)]> h
      | _ => h
      end
  | _ => h
  end.

(** What a successful [fetch_contacts] leaves: a fresh list of fresh
    dicts, one per row of the table, in the order of the table. *)
Definition fetched (w : world) (lc : loc) (locs : list loc) (w' : world)
    : Prop :=
  w' = set_heap (heap w') (set_db_conns (S (db_conns w)) w)
  /\ heap w' !! lc = Some (OList (map PRef locs))
  /\ Forall2 (fun l r => heap w' !! l = Some (ODict (row_dict r)))
             locs (db_rows w)
  /\ NoDup (lc :: locs)
  /\ (forall l, l ∈ lc :: locs -> heap w !! l = None)
  /\ (forall l, l ∉ lc :: locs -> heap w' !! l = heap w !! l).

(** The template file [load_template] reads for a style given by name:
    the style's own file, or the one of "modern" for a name outside the
    fixed set. *)
Definition template_filename (s : string) : string :=
  match assoc_get s get_template_files with
  | Some name => name
  | None => "modern_template.html"
  end.

(** The style name the next draw of the random generator picks. *)
Definition drawn_style (e : env) (w : world) : string :=
  match style_names !! (random_draw e (rng_calls w) mod length style_names)%nat with
  | Some s => s
  | None => "modern"
  end.

(** What [select_template_style] resolves a requested style to, and the
    draw it consumes for "random". *)
Definition resolved_style (e : env) (w : world) (style : pyval) : pyval :=
  if py_eq_str style "random" then PStr (drawn_style e w) else style.

Definition advance_rng (style : pyval) (w : world) : world :=
  if py_eq_str style "random" then set_rng_calls (S (rng_calls w)) w else w.

(** The keyword arguments the template is rendered with. *)
Definition template_kwargs (e : env) (contacts : pyval)
    : list (string * pyval) :=
  [("contacts", contacts); ("timestamp", PStr (clock_now e))].

(** A request body that is absent ([get_json()] gives [None]) or a JSON
    object. *)
Definition object_or_absent (body : pyval) : Prop :=
  match body with PNone | PDict _ => True | _ => False end.

(** [data.get(key, default)] for such a body. *)
Definition request_field (body : pyval) (key : string) (default : pyval)
    : pyval :=
  match body with
  | PDict entries =>
      match assoc_get key entries with Some v => v | None => default end
  | _ => default
  end.

(** The JSON object a successful [POST /api/generate] answers with. *)
Definition generated_body (output_path : string) (style : pyval) (count : nat)
    (name : string) : pyval :=
  jsonify [("message", PStr "HTML file generated successfully");
           ("output_path", PStr output_path);
           ("template_style", style);
           ("contacts_count", PInt (Z.of_nat count));
           ("download_url", PStr ("/download/" ++ name))].

(** Both credentials configured and not empty. *)
Definition configured (e : env) : Prop :=
  py_truthy ∅ (config_value (SMARTY_AUTH_ID (cfg e))) = true
  /\ py_truthy ∅ (config_value (SMARTY_AUTH_TOKEN (cfg e))) = true.

(** The validation status of a documented answer: the one the four cases
    give. *)
Definition documented_status (answer : net_outcome) : pyval :=
  match answer with
  | NetRaise _ => PStr "Validation Failed"
  | NetResponse status body =>
      if (status =? 200)%Z then
        match body with
        | Ret (PList (x :: items)) => PList (x :: items)
        | _ => PBool false
        end
      else PStr "API Error"
  end.

(** The request [api_validate_addresses] sends for a row. *)
Definition row_request (e : env) (r : row) : http_request :=
  smarty_request (row_address r) (row_city r) (row_state r) (row_zipcode r)
    (config_value (SMARTY_AUTH_ID (cfg e)))
    (config_value (SMARTY_AUTH_TOKEN (cfg e))).

(** The status of the [i]-th contact of a run whose first request is the
    [n]-th of the network, and the statuses of all contacts. *)
Definition validation_status (e : env) (n i : nat) (r : row) : pyval :=
  documented_status (http_get e (n + i) (row_request e r)).



(** ** The other endpoints *)

(** The value of a finite float against an integer: [f == n]. *)
Definition float_eq_int (f : spec_float) (n : Z) : bool :=
  match f with
  | S754_zero _ => (n =? 0)%Z
  | S754_finite negative m e =>
      (if negative then (n <? 0)%Z else (0 <? n)%Z)
      && (if (0 <=? e)%Z then (Z.pos m * 2 ^ e =? Z.abs n)%Z
          else (Z.pos m =? Z.abs n * 2 ^ (- e))%Z)
  | _ => false
  end.

(** [v == n] for an int [n]: numbers compare by value ([True] is 1),
    nothing else equals an int. *)
Definition py_eq_int (v : pyval) (n : Z) : bool :=
  match v with
  | PInt m => (m =? n)%Z
  | PBool b => ((if b then 1 else 0) =? n)%Z
  | PFloat f => float_eq_int f n
  | _ => false
  end.

(** [next((c for c in items if c['id'] == contact_id), None)]: the items
    are visited in order and the search stops at the first match. *)
Fixpoint first_with_id (items : list pyval) (contact_id : Z) : M pyval :=
  match items with
  | [] => ret PNone
  | c :: rest =>
      let* id := py_getitem c "id" in
      if py_eq_int id contact_id then ret c
      else first_with_id rest contact_id
  end.

Definition find_contact (contacts : pyval) (contact_id : Z) : M pyval :=
  let* items := py_iter contacts in
  first_with_id items contact_id.

(** The body of [api_contacts], before decoration; [now_iso] is what
    [datetime.now().isoformat()] gives. *)
Definition api_contacts_body (now_iso : string) : M response :=
  let* contacts := fetch_contacts in
  let* count := py_len contacts in
  ret (Response
         (jsonify [("contacts", contacts);
                   ("count", PInt (Z.of_nat count));
                   ("timestamp", PStr now_iso)])
         200).

(** [GET /api/contacts]. *)
Definition api_contacts (now_iso : string) : M response :=
  handle_db_errors (api_contacts_body now_iso).

(** The body of [api_contact_detail], before decoration.  The route
    converter hands the id over as an int. *)
Definition api_contact_detail_body (contact_id : Z) : M response :=
  let* contacts := fetch_contacts in
  let* contact := find_contact contacts contact_id in
  let* found := truthy contact in
  if negb found then
    ret (Response (jsonify [("error", PStr "Contact not found")]) 404)
  else ret (Response contact 200).

(** [GET /api/contacts/<int:contact_id>]. *)
Definition api_contact_detail (contact_id : Z) : M response :=
  handle_db_errors (api_contact_detail_body contact_id).

(** The body of [api_validate_single_address], before decoration. *)
Definition api_validate_single_address_body (contact_id : Z) : M response :=
  let* e := ask in
  let* contacts := fetch_contacts in
  let* contact := find_contact contacts contact_id in
  let* found := truthy contact in
  if negb found then
    ret (Response (jsonify [("error", PStr "Contact not found")]) 404)
  else
    let* address := py_getitem contact "address" in
    let* city := py_getitem contact "city" in
    let* state := py_getitem contact "state" in
    let* zipcode := py_getitem contact "zipcode" in
    let* validation_result :=
      validate_address_smarty address city state zipcode
        (config_value (SMARTY_AUTH_ID (cfg e)))
        (config_value (SMARTY_AUTH_TOKEN (cfg e))) in
    update_validation_status (PInt contact_id) validation_result >>
    py_setitem contact "valid" validation_result >>
    let* _ := py_getitem contact "first_name" in
    let* _ := py_getitem contact "last_name" in
    ret (Response
           (jsonify [("message", PStr "Address validation completed");
                     ("contact", contact)])
           200).

(** [POST /api/validate/<int:contact_id>]. *)
Definition api_validate_single_address (contact_id : Z) : M response :=
  handle_db_errors (api_validate_single_address_body contact_id).

(** [GET /api/templates]. *)
Definition api_template_styles : M response :=
  let* e := ask in
  ret (Response
         (jsonify [("template_styles",
                    PList (map (fun kv => PStr (fst kv)) get_template_files));
                   ("default", PStr (TEMPLATE_STYLE (cfg e)))])
         200).

(** The connection test of [health_check]: its [try] statement, which
    leaves [db_status]. *)
Definition health_db_status : M string :=
  try_except
    (let* conn := get_db_connection in
     conn_close >>
     ret "healthy")
    (fun _ => true)
    (fun x => ret ("error: " ++ exn_msg x)).

(** [GET /api/health]; the view is not decorated. *)
Definition health_check (now_iso : string) : M response :=
  let* db_status := health_db_status in
  ret (Response
         (jsonify [("status",
                    PStr (if String.eqb db_status "healthy"
                          then "healthy" else "unhealthy"));
                   ("database", PStr db_status);
                   ("timestamp", PStr now_iso);
                   ("version", PStr "1.0.0")])
         200).

(** [a and b]. *)
Definition py_and (h : gmap loc obj) (a b : pyval) : pyval :=
  if py_truthy h a then b else a.

(** [GET /api/config]. *)
Definition api_config : M response :=
  let* e := ask in
  let* w := get in
  ret (Response
         (jsonify [("template_style", PStr (TEMPLATE_STYLE (cfg e)));
                   ("templates_dir", PStr (TEMPLATES_DIR (cfg e)));
                   ("output_dir", PStr (OUTPUT_DIR (cfg e)));
                   ("smarty_configured",
                    PBool (py_truthy (heap w)
                             (py_and (heap w)
                                (config_value (SMARTY_AUTH_ID (cfg e)))
                                (config_value (SMARTY_AUTH_TOKEN (cfg e))))))])
         200).

(** ** Vocabulary of the further properties *)

(** The columns a row and its fetched dict agree on. *)
Definition holds_row (fields : gmap string pyval) (r : row) : Prop :=
  fields !! "id" = Some (PInt (row_id r))
  /\ fields !! "first_name" = Some (row_first_name r)
  /\ fields !! "last_name" = Some (row_last_name r)
  /\ fields !! "address" = Some (row_address r)
  /\ fields !! "city" = Some (row_city r)
  /\ fields !! "state" = Some (row_state r)
  /\ fields !! "zipcode" = Some (row_zipcode r)
  /\ fields !! "country" = Some (row_country r)
  /\ fields !! "valid" = Some (row_valid r).

(** Two rows that differ at most in the column [valid]. *)
Definition same_but_valid (r r' : row) : Prop :=
  with_valid (row_valid r) r' = r.

(** A credential is missing or empty. *)
Definition unconfigured (e : env) : Prop :=
  py_truthy ∅ (config_value (SMARTY_AUTH_ID (cfg e))) = false
  \/ py_truthy ∅ (config_value (SMARTY_AUTH_TOKEN (cfg e))) = false.

(** Further sample inputs. *)
Module Sample2.

(** No credentials in the configuration. *)
Definition config_no_credentials : config :=
  Config None None "random" "templates" "static/generated".

Definition env_no_credentials : env :=
  Env config_no_credentials
      (fun _ _ => NetResponse 200 (Ret (PList [PDict [("input_index", PInt 0)]])))
      (fun _ => None)
      (fun _ => None)
      (fun n => n)
      (fun template _ _ => Ret ("<html>" ++ template ++ "</html>"))
      "2024-01-01 00:00:00".

End Sample2.

(** The by-value values that have a length. *)
Definition has_len (v : pyval) : bool :=
  match v with PStr _ | PList _ | PDict _ => true | _ => false end.

(** A value held by value, not a reference into the heap. *)
Definition by_value (v : pyval) : Prop :=
  match v with PRef _ => False | _ => True end.

(** An element of a contact list that is no dict: a scalar, a payload
    list, or a reference to something else than a dict. *)
Definition not_a_record (h : gmap loc obj) (v : pyval) : Prop :=
  match v with
  | PDict _ => False
  | PRef l => match h !! l with Some (ODict _) => False | _ => True end
  | _ => True
  end.

(** * Properties *)

(** ** Running computations *)

(** Unfolds the primitives of the model, one layer of Python at a time. *)
Ltac run_model :=
  unfold bind, ret, raise, ask, get, modify, try_except, try_finally, truthy,
    alloc, py_append, os_path_exists, os_makedirs, read_text_file,
    write_text_file, requests_get, response_json, psycopg2_connect,
    cursor_execute, conn_commit, conn_close, request_get_json, type_error,
    render_custom_template, random_choice, str_dict_getitem, str_dict_get,
    os_path_join;
  cbn [heap db_rows db_conns db_open http_log files dirs rng_calls
       set_heap set_db_rows set_db_conns set_db_open set_http_log set_files
       set_dirs set_rng_calls fst snd].

Lemma bind_ret_run {A B} (m : M A) (k : A -> M B) e w a w' :
  m e w = (Ret a, w') -> bind m k e w = k a e w'.
Proof. intros H. unfold bind. now rewrite H. Qed.

Lemma bind_raise_run {A B} (m : M A) (k : A -> M B) e w x w' :
  m e w = (Raise x, w') -> bind m k e w = (Raise x, w').
Proof. intros H. unfold bind. now rewrite H. Qed.

(** ** The address validator *)

(** Without a truthy id and token the function answers at once and leaves
    the world, hence the network, alone. *)
Lemma validate_skips_without_credentials
    address city state zipcode auth_id auth_token e w :
  py_truthy (heap w) auth_id = false \/ py_truthy (heap w) auth_token = false ->
  validate_address_smarty address city state zipcode auth_id auth_token e w
  = (Ret (PStr "Not Validated"), w).
Proof.
  intros H. unfold validate_address_smarty, bind, truthy, ret.
  destruct (py_truthy (heap w) auth_id); simpl; [|reflexivity].
  destruct H as [H|H]; [discriminate|]. now rewrite H.
Qed.

(** With credentials, one request is issued and the answer decides. *)
Lemma validate_with_credentials
    address city state zipcode auth_id auth_token e w :
  py_truthy (heap w) auth_id = true ->
  py_truthy (heap w) auth_token = true ->
  validate_address_smarty address city state zipcode auth_id auth_token e w
  = try_except
      (let* response := requests_get smarty_url
         (smarty_params address city state zipcode auth_id auth_token) 10 in
       if (fst response =? 200)%Z then
         let* data := response_json response in
         let* nonempty := truthy data in
         let* matched :=
           (if nonempty then let* n := py_len data in ret (0 <? n)%nat
            else ret false) in
         if matched then ret data else ret (PBool false)
       else ret (PStr "API Error"))
      is_request_exception
      (fun _ => ret (PStr "Validation Failed")) e w.
Proof.
  intros Hid Htoken. unfold validate_address_smarty at 1.
  unfold bind at 1, truthy at 1. rewrite Hid. simpl negb. cbv iota.
  unfold bind at 1, bind at 1, truthy at 1, ret at 1. rewrite Htoken.
  reflexivity.
Qed.

(** C2. Whenever the auth id or the auth token is absent ([None]),
    [validate_address_smarty] returns exactly "Not Validated" and issues no
    HTTP request: the world, and with it the log of requests, is the one it
    started from. *)
Theorem validate_not_validated_without_credentials
    address city state zipcode auth_id auth_token e w :
  auth_id = PNone \/ auth_token = PNone ->
  validate_address_smarty address city state zipcode auth_id auth_token e w
  = (Ret (PStr "Not Validated"), w)
  /\ http_log
       (snd (validate_address_smarty address city state zipcode
               auth_id auth_token e w))
     = http_log w.
Proof.
  intros H.
  assert (Hrun : validate_address_smarty address city state zipcode
                   auth_id auth_token e w = (Ret (PStr "Not Validated"), w)).
  { apply validate_skips_without_credentials.
    destruct H as [-> | ->]; [left | right]; reflexivity. }
  split; [exact Hrun | now rewrite Hrun].
Qed.

Lemma validate_not_validated_without_credentials_witness :
  validate_address_smarty (PStr "1 Main St") (PStr "Richmond") (PStr "VA")
    (PStr "23219") PNone (PStr "token") Sample.env0 (Sample.world0 [])
  = (Ret (PStr "Not Validated"), Sample.world0 []).
Proof.
  apply (validate_not_validated_without_credentials
           (PStr "1 Main St") (PStr "Richmond") (PStr "VA") (PStr "23219")
           PNone (PStr "token") Sample.env0 (Sample.world0 [])).
  left. reflexivity.
Defined.

(** C1, as amended. With both credentials present, for every answer of the
    network that is a transport failure, a non-200 response or a 200
    response whose body is a JSON array, the call returns, without raising,
    what the four cases say: the array itself when it is not empty, [False]
    when it is empty, "API Error" for a non-200 status, "Validation Failed"
    for a transport failure. *)
Theorem validate_address_smarty_four_cases
    address city state zipcode auth_id auth_token e w :
  py_truthy (heap w) auth_id = true ->
  py_truthy (heap w) auth_token = true ->
  let answer :=
    http_get e (length (http_log w))
      (smarty_request address city state zipcode auth_id auth_token) in
  documented_answer answer ->
  four_cases answer
    (fst (validate_address_smarty address city state zipcode
            auth_id auth_token e w)).
Proof.
  intros Hid Htoken answer Hdoc.
  rewrite validate_with_credentials by assumption.
  unfold try_except, bind at 1, requests_get.
  fold (smarty_request address city state zipcode auth_id auth_token).
  fold answer. unfold four_cases.
  destruct answer as [x | status body]; simpl in Hdoc.
  - right; right; right. exists x. rewrite Hdoc. simpl. auto.
  - cbn [fst]. destruct (Z.eqb_spec status 200) as [-> | Hne].
    + destruct (Hdoc eq_refl) as [items ->].
      destruct items as [| x items]; [right; left | left; exists x, items];
        split; reflexivity.
    + right; right; left. exists status, body. auto.
Qed.

Lemma validate_address_smarty_four_cases_witness :
  four_cases
    (NetResponse 200 (Ret (PList [PDict [("input_index", PInt 0)]])))
    (fst (validate_address_smarty (PStr "1 Main St") (PStr "Richmond")
            (PStr "VA") (PStr "23219") (PStr "id") (PStr "token")
            Sample.env0 (Sample.world0 []))).
Proof.
  apply (validate_address_smarty_four_cases
           (PStr "1 Main St") (PStr "Richmond") (PStr "VA") (PStr "23219")
           (PStr "id") (PStr "token") Sample.env0 (Sample.world0 [])).
  - reflexivity.
  - reflexivity.
  - simpl. intros _. eexists. reflexivity.
Defined.

(** C1, as first stated, fails: the four cases do not exhaust the calls
    with credentials.  A 200 response whose body is the JSON number 5 is
    none of them, and there [len(data)] raises a [TypeError] that the
    handler for [requests.RequestException] does not catch. *)
Lemma number_body_raises_type_error :
  let e := Sample.env_number_body in
  let w := Sample.world0 [] in
  let answer :=
    http_get e (length (http_log w))
      (smarty_request (PStr "1 Main St") (PStr "Richmond") (PStr "VA")
         (PStr "23219") (PStr "id") (PStr "token")) in
  let result :=
    fst (validate_address_smarty (PStr "1 Main St") (PStr "Richmond")
           (PStr "VA") (PStr "23219") (PStr "id") (PStr "token") e w) in
  answer = NetResponse 200 (Ret (PInt 5))
  /\ result = Raise (Exn TypeError "object has no len()")
  /\ ~ four_cases answer result.
Proof.
  cbv zeta. split; [reflexivity |]. split; [reflexivity |].
  unfold four_cases. simpl.
  intros [(x & items & H & _) | [[H _] | [(status & body & H & Hne & _) | (x & H & _)]]];
    try discriminate.
  injection H as <- _. now apply Hne.
Qed.

(** ** Display attributes *)

Lemma get_validation_attributes_valid :
  get_validation_attributes (PStr "valid")
  = ("valid", "valid-badge", "Valid Address").
Proof. reflexivity. Qed.

Lemma get_validation_attributes_invalid :
  get_validation_attributes (PStr "invalid")
  = ("invalid", "invalid-badge", "Invalid Address").
Proof. reflexivity. Qed.

Lemma py_eq_str_true v s : py_eq_str v s = true <-> v = PStr s.
Proof.
  destruct v; simpl; try (split; discriminate).
  rewrite String.eqb_eq. split; congruence.
Qed.

Lemma get_validation_attributes_other v :
  v <> PStr "valid" -> v <> PStr "invalid" ->
  get_validation_attributes v
  = ("not-validated", "not-validated-badge", "Not Validated").
Proof.
  intros Hv Hi. unfold get_validation_attributes.
  destruct (py_eq_str v "valid") eqn:E1.
  { apply py_eq_str_true in E1. contradiction. }
  destruct (py_eq_str v "invalid") eqn:E2.
  { apply py_eq_str_true in E2. contradiction. }
  reflexivity.
Qed.

Lemma with_attributes_lookup fields :
  let '(css_class, badge_class, validation_text) :=
    get_validation_attributes (status_of fields) in
  with_attributes fields !! "css_class" = Some (PStr css_class)
  /\ with_attributes fields !! "badge_class" = Some (PStr badge_class)
  /\ with_attributes fields !! "validation_text" = Some (PStr validation_text).
Proof.
  unfold with_attributes.
  destruct (get_validation_attributes (status_of fields)) as [[c b] t].
  repeat split.
  - rewrite lookup_insert_ne by discriminate.
    rewrite lookup_insert_ne by discriminate. apply lookup_insert_eq.
  - rewrite lookup_insert_ne by discriminate. apply lookup_insert_eq.
  - apply lookup_insert_eq.
Qed.

Lemma with_attributes_other fields key :
  key ∉ display_keys -> with_attributes fields !! key = fields !! key.
Proof.
  intros Hkey. unfold with_attributes.
  destruct (get_validation_attributes (status_of fields)) as [[c b] t].
  unfold display_keys in Hkey.
  rewrite !lookup_insert_ne; [reflexivity | | |];
    intros <-; apply Hkey; repeat constructor.
Qed.

Lemma with_attributes_status fields :
  status_of (with_attributes fields) = status_of fields.
Proof.
  unfold status_of. rewrite with_attributes_other; [reflexivity |].
  unfold display_keys. intros Hin.
  repeat (apply elem_of_cons in Hin as [Hin | Hin]; [discriminate |]).
  now apply elem_of_nil in Hin.
Qed.

Lemma with_attributes_idem fields :
  with_attributes (with_attributes fields) = with_attributes fields.
Proof.
  unfold with_attributes at 1. rewrite with_attributes_status.
  unfold with_attributes.
  destruct (get_validation_attributes (status_of fields)) as [[c b] t].
  apply map_eq. intros key. rewrite !lookup_insert.
  repeat case_decide; reflexivity.
Qed.

(** ** [prepare_contact_data] on the heap *)

Lemma style_contact_run e w l fields :
  heap w !! l = Some (ODict fields) ->
  style_contact (PRef l) e w = (Ret tt, set_heap (restyle (heap w) (PRef l)) w).
Proof.
  intros Hl. unfold style_contact, restyle, with_attributes.
  unfold bind at 1, py_get. rewrite Hl. fold (status_of fields).
  destruct (get_validation_attributes (status_of fields)) as [[c b] t].
  unfold bind, py_setitem. rewrite Hl. cbn [heap set_heap].
  rewrite lookup_insert_eq. cbn [heap set_heap].
  rewrite lookup_insert_eq. unfold set_heap. cbn.
  rewrite !insert_insert_eq. reflexivity.
Qed.

Lemma restyle_lookup_ne h l l' :
  l <> l' -> restyle h (PRef l) !! l' = h !! l'.
Proof.
  intros Hne. unfold restyle. destruct (h !! l) as [[fields | items] |]; auto.
  now rewrite lookup_insert_ne.
Qed.

Lemma restyle_lookup_eq h l fields :
  h !! l = Some (ODict fields) ->
  restyle h (PRef l) !! l = Some (ODict (with_attributes fields)).
Proof. intros Hl. unfold restyle. rewrite Hl. apply lookup_insert_eq. Qed.

Lemma restyle_is_contact h v u :
  is_contact h u -> is_contact (restyle h v) u.
Proof.
  intros (l & fields & -> & Hl). destruct v as [| | | | | | | l0]; try (now exists l, fields).
  destruct (decide (l0 = l)) as [-> | Hne].
  - exists l, (with_attributes fields). split; [reflexivity |].
    now apply restyle_lookup_eq.
  - exists l, fields. split; [reflexivity |].
    now rewrite restyle_lookup_ne.
Qed.

Lemma for_each_style_contact_run items : forall e w,
  Forall (is_contact (heap w)) items ->
  for_each items style_contact e w
  = (Ret tt, set_heap (foldl restyle (heap w) items) w).
Proof.
  induction items as [| v items IH]; intros e w Hall.
  - simpl. unfold ret. now destruct w.
  - inversion Hall as [| ? ? Hv Hrest]; subst.
    destruct Hv as (l & fields & -> & Hl).
    cbn [for_each foldl]. rewrite (bind_ret_run _ _ _ _ _ _ (style_contact_run e w l fields Hl)).
    rewrite IH.
    + reflexivity.
    + cbn [heap set_heap]. eapply Forall_impl; [exact Hrest |].
      intros u. apply restyle_is_contact.
Qed.

Lemma ref_eq_dec (v : pyval) (l : loc) : {v = PRef l} + {v <> PRef l}.
Proof.
  destruct v as [| | | | | | | l0]; try (right; discriminate).
  destruct (decide (l0 = l)) as [-> | Hne]; [left | right]; congruence.
Qed.

Lemma ref_in_dec (items : list pyval) (l : loc) :
  {PRef l ∈ items} + {PRef l ∉ items}.
Proof.
  induction items as [| v items IH].
  - right. apply not_elem_of_nil.
  - destruct (ref_eq_dec v l) as [-> | Hne].
    + left. apply list_elem_of_here.
    + destruct IH as [Hin | Hout].
      * left. now apply list_elem_of_further.
      * right. intros Hin. apply elem_of_cons in Hin as [Heq | Hin]; auto.
Qed.

(** What the loop leaves at each address. *)
Lemma foldl_restyle_lookup items : forall h l,
  (PRef l ∉ items -> foldl restyle h items !! l = h !! l)
  /\ (forall fields, PRef l ∈ items -> h !! l = Some (ODict fields) ->
      foldl restyle h items !! l = Some (ODict (with_attributes fields))).
Proof.
  induction items as [| v items IH]; intros h l; cbn [foldl].
  - split; [reflexivity | intros fields Hin; now apply elem_of_nil in Hin].
  - destruct (IH (restyle h v) l) as [IHout IHin]. split.
    + intros Hnotin. rewrite IHout by (intros Hin; apply Hnotin; now right).
      destruct v as [| | | | | | | l0]; try reflexivity.
      apply restyle_lookup_ne. intros ->. apply Hnotin. now left.
    + intros fields Hin Hl.
      destruct (ref_in_dec items l) as [Hrest | Hrest].
      * destruct (ref_eq_dec v l) as [-> | Hne].
        -- rewrite (IHin (with_attributes fields) Hrest (restyle_lookup_eq _ _ _ Hl)).
           now rewrite with_attributes_idem.
        -- apply IHin; [exact Hrest |].
           destruct v as [| | | | | | | l0]; try exact Hl.
           rewrite restyle_lookup_ne; [exact Hl | congruence].
      * assert (v = PRef l) as ->.
        { apply elem_of_cons in Hin as [Heq | Hin]; [now symmetry | contradiction]. }
        rewrite IHout by exact Hrest. now apply restyle_lookup_eq.
Qed.

Lemma prepare_contact_data_run e w lc items :
  contact_list (heap w) lc items ->
  prepare_contact_data (PRef lc) e w
  = (Ret (PRef lc), set_heap (foldl restyle (heap w) items) w).
Proof.
  intros [Hlc Hall]. unfold prepare_contact_data.
  unfold bind at 1, py_iter. rewrite Hlc.
  unfold bind. rewrite for_each_style_contact_run by exact Hall.
  reflexivity.
Qed.

Lemma contact_list_fields h lc items l :
  contact_list h lc items -> PRef l ∈ items ->
  exists fields, h !! l = Some (ODict fields).
Proof.
  intros [_ Hall] Hin. rewrite Forall_forall in Hall.
  destruct (Hall _ Hin) as (l' & fields & [= ->] & Hl). now exists fields.
Qed.

Lemma contact_list_not_member h lc items :
  contact_list h lc items -> PRef lc ∉ items.
Proof.
  intros Hlist Hin. destruct (contact_list_fields _ _ _ _ Hlist Hin) as [fields Hl].
  destruct Hlist as [Hlc _]. congruence.
Qed.

Lemma sample_contact_list :
  contact_list Sample.heap1 0 [PRef 1; PRef 2].
Proof.
  split; [reflexivity |].
  repeat constructor.
  - exists 1, (row_dict Sample.ada). split; reflexivity.
  - exists 2, (row_dict Sample.cyd). split; reflexivity.
Qed.

(** C5. The display attributes follow the three-way mapping on the
    validation status: the string "valid" gives valid / valid-badge /
    "Valid Address", the string "invalid" gives invalid / invalid-badge /
    "Invalid Address", and every other value, [False] and an absent status
    included, gives not-validated / not-validated-badge / "Not Validated";
    and [prepare_contact_data] stores, in every contact record of its list,
    the attributes this mapping gives for the record's status. *)
Theorem validation_attributes_three_way_mapping :
  get_validation_attributes (PStr "valid")
  = ("valid", "valid-badge", "Valid Address")
  /\ get_validation_attributes (PStr "invalid")
     = ("invalid", "invalid-badge", "Invalid Address")
  /\ (forall v, v <> PStr "valid" -> v <> PStr "invalid" ->
      get_validation_attributes v
      = ("not-validated", "not-validated-badge", "Not Validated"))
  /\ get_validation_attributes (PBool false)
     = ("not-validated", "not-validated-badge", "Not Validated")
  /\ (forall fields : gmap string pyval, fields !! "valid" = None ->
      get_validation_attributes (status_of fields)
      = ("not-validated", "not-validated-badge", "Not Validated"))
  /\ (forall e w lc items l fields,
      contact_list (heap w) lc items ->
      PRef l ∈ items ->
      heap w !! l = Some (ODict fields) ->
      exists fields',
        heap (snd (prepare_contact_data (PRef lc) e w)) !! l
        = Some (ODict fields')
        /\ let '(css_class, badge_class, validation_text) :=
             get_validation_attributes (status_of fields) in
           fields' !! "css_class" = Some (PStr css_class)
           /\ fields' !! "badge_class" = Some (PStr badge_class)
           /\ fields' !! "validation_text" = Some (PStr validation_text)).
Proof.
  split; [exact get_validation_attributes_valid |].
  split; [exact get_validation_attributes_invalid |].
  split; [exact get_validation_attributes_other |].
  split; [reflexivity |].
  split.
  { intros fields Hnone. unfold status_of. rewrite Hnone. reflexivity. }
  intros e w lc items l fields Hlist Hin Hl.
  rewrite (prepare_contact_data_run e w lc items Hlist). cbn [snd heap set_heap].
  exists (with_attributes fields). split.
  - now apply foldl_restyle_lookup.
  - apply with_attributes_lookup.
Qed.

Lemma validation_attributes_three_way_mapping_witness :
  exists fields',
    heap (snd (prepare_contact_data (PRef 0) Sample.env0 Sample.world1)) !! 2%nat
    = Some (ODict fields')
    /\ fields' !! "css_class" = Some (PStr "valid")
    /\ fields' !! "badge_class" = Some (PStr "valid-badge")
    /\ fields' !! "validation_text" = Some (PStr "Valid Address").
Proof.
  destruct validation_attributes_three_way_mapping as (_ & _ & _ & _ & _ & H).
  apply (H Sample.env0 Sample.world1 0%nat [PRef 1; PRef 2] 2%nat
           (row_dict Sample.cyd)).
  - exact sample_contact_list.
  - apply list_elem_of_further, list_elem_of_here.
  - reflexivity.
Defined.

(** C9. [prepare_contact_data] works in place: it returns the very list it
    was given, which still holds the same records in the same order; in
    each record it sets the three keys [css_class], [badge_class] and
    [validation_text] and leaves every other field as it was; and it
    touches nothing else, neither another object of the heap nor the rest
    of the world.  [prepare_template_data] hands that same list on. *)
Theorem prepare_contact_data_in_place e w lc items :
  contact_list (heap w) lc items ->
  let run := prepare_contact_data (PRef lc) e w in
  let w' := snd run in
  fst run = Ret (PRef lc)
  /\ heap w' !! lc = Some (OList items)
  /\ (forall l fields, PRef l ∈ items -> heap w !! l = Some (ODict fields) ->
      exists fields',
        heap w' !! l = Some (ODict fields')
        /\ (forall key, key ∈ display_keys -> is_Some (fields' !! key))
        /\ (forall key, key ∉ display_keys -> fields' !! key = fields !! key))
  /\ (forall l, PRef l ∉ items -> heap w' !! l = heap w !! l)
  /\ set_heap (heap w) w' = w
  /\ prepare_template_data (PRef lc) e w
     = (Ret [("contacts", PRef lc); ("timestamp", PStr (clock_now e))], w').
Proof.
  intros Hlist run w'. subst run w'.
  unfold prepare_template_data, bind, ask, ret.
  rewrite (prepare_contact_data_run e w lc items Hlist). cbn [fst snd heap set_heap].
  split; [reflexivity |].
  split.
  { destruct (foldl_restyle_lookup items (heap w) lc) as [Hout _].
    rewrite Hout; [apply Hlist | eapply contact_list_not_member; eassumption]. }
  split.
  { intros l fields Hin Hl. exists (with_attributes fields).
    split; [now apply foldl_restyle_lookup |]. split.
    - intros key Hkey. pose proof (with_attributes_lookup fields) as Hattr.
      destruct (get_validation_attributes (status_of fields)) as [[c b] t].
      destruct Hattr as (Hc & Hb & Ht). unfold display_keys in Hkey.
      repeat (apply elem_of_cons in Hkey as [-> | Hkey]; [eauto |]).
      now apply not_elem_of_nil in Hkey.
    - intros key Hkey. now apply with_attributes_other. }
  split.
  { intros l Hout. now apply foldl_restyle_lookup. }
  split; [now destruct w | reflexivity].
Qed.

Lemma prepare_contact_data_in_place_witness :
  fst (prepare_contact_data (PRef 0) Sample.env0 Sample.world1) = Ret (PRef 0)
  /\ heap (snd (prepare_contact_data (PRef 0) Sample.env0 Sample.world1)) !! 0%nat
     = Some (OList [PRef 1; PRef 2]).
Proof.
  destruct (prepare_contact_data_in_place Sample.env0 Sample.world1 0%nat
              [PRef 1; PRef 2] sample_contact_list) as (H1 & H2 & _).
  split; [exact H1 | exact H2].
Defined.

(** ** The contact store *)

Lemma world_eta w :
  World (db_rows w) (db_conns w) (db_open w) (http_log w) (files w) (dirs w)
        (rng_calls w) (heap w) = w.
Proof. now destruct w. Qed.

(** The loop of [fetch_contacts] allocates one dict per row, in row order,
    at unused and distinct addresses, and appends them to the list. *)
Lemma for_each_collect_row_run lc rows : forall e w items0,
  heap w !! lc = Some (OList items0) ->
  exists locs h',
    for_each rows (collect_row (PRef lc)) e w = (Ret tt, set_heap h' w)
    /\ h' !! lc = Some (OList (items0 ++ map PRef locs))
    /\ Forall2 (fun l r => h' !! l = Some (ODict (row_dict r))) locs rows
    /\ NoDup locs
    /\ (forall l, l ∈ locs -> heap w !! l = None)
    /\ (forall l, l <> lc -> l ∉ locs -> h' !! l = heap w !! l).
Proof.
  induction rows as [| r rows IH]; intros e w items0 Hlc.
  - exists [], (heap w). cbn [for_each map]. rewrite app_nil_r.
    unfold ret, set_heap. rewrite world_eta.
    repeat split; auto using NoDup_nil_2.
    intros l Hin. now apply not_elem_of_nil in Hin.
  - set (l := fresh (dom (heap w))).
    assert (Hfresh : heap w !! l = None).
    { apply not_elem_of_dom. apply is_fresh. }
    assert (Hne : l <> lc) by congruence.
    set (h1 := <[lc := OList (items0 ++ [PRef l])]>
                 (<[l := ODict (row_dict r)]> (heap w))).
    assert (Hstep : collect_row (PRef lc) r e w = (Ret tt, set_heap h1 w)).
    { unfold collect_row, bind, alloc, py_append. fold l. cbn [heap set_heap].
      rewrite lookup_insert_ne by exact Hne. rewrite Hlc. reflexivity. }
    destruct (IH e (set_heap h1 w) (items0 ++ [PRef l])%list) as
      (locs & h' & Hrun & Hlist & Hdicts & Hnodup & Hnew & Hold).
    { cbn [heap set_heap]. unfold h1. apply lookup_insert_eq. }
    cbn [heap set_heap] in Hnew, Hold.
    assert (Hl_notin : l ∉ locs).
    { intros Hin. apply Hnew in Hin. unfold h1 in Hin.
      rewrite lookup_insert_ne in Hin by congruence.
      rewrite lookup_insert_eq in Hin. discriminate. }
    exists (l :: locs), h'. split.
    { cbn [for_each]. rewrite (bind_ret_run _ _ _ _ _ _ Hstep). exact Hrun. }
    split.
    { rewrite Hlist. rewrite <- app_assoc. reflexivity. }
    split.
    { constructor; [| exact Hdicts].
      rewrite Hold by assumption. unfold h1.
      rewrite lookup_insert_ne by congruence. apply lookup_insert_eq. }
    split.
    { now constructor. }
    split.
    { intros l' Hin. apply elem_of_cons in Hin as [-> | Hin]; [exact Hfresh |].
      apply Hnew in Hin. unfold h1 in Hin.
      destruct (decide (l' = lc)) as [-> | Hlc'].
      { rewrite lookup_insert_eq in Hin. discriminate. }
      rewrite lookup_insert_ne in Hin by congruence.
      destruct (decide (l' = l)) as [-> | Hl']; [exact Hfresh |].
      now rewrite lookup_insert_ne in Hin by congruence. }
    intros l' Hlc' Hnotin.
    rewrite Hold; [| exact Hlc' | intros Hin; apply Hnotin; now right].
    unfold h1. rewrite lookup_insert_ne by congruence.
    rewrite lookup_insert_ne; [reflexivity |].
    intros <-. apply Hnotin. now left.
Qed.

Lemma fetch_contacts_run e w :
  read_fault e (db_conns w) = None ->
  exists lc locs w',
    fetch_contacts e w = (Ret (PRef lc), w') /\ fetched w lc locs w'.
Proof.
  intros Hfault. unfold read_fault in Hfault.
  set (lc := fresh (dom (heap w))).
  assert (Hfresh : heap w !! lc = None).
  { apply not_elem_of_dom. apply is_fresh. }
  set (w1 := set_heap (<[lc := OList []]> (heap w))
               (set_db_open (S (db_open w)) (set_db_conns (S (db_conns w)) w))).
  destruct (for_each_collect_row_run lc (db_rows w) e w1 [])
    as (locs & h' & Hrun & Hlist & Hdicts & Hnodup & Hnew & Hold).
  { apply lookup_insert_eq. }
  cbn [heap set_heap w1] in Hnew, Hold.
  assert (Hnotin : lc ∉ locs).
  { intros Hin. apply Hnew in Hin. rewrite lookup_insert_eq in Hin. discriminate. }
  exists lc, locs, (set_heap h' (set_db_conns (S (db_conns w)) w)).
  split.
  - unfold fetch_contacts, get_db_connection. run_model.
    destruct (db_fault e (db_conns w)) as [[[| |] x] |] eqn:Efault;
      try discriminate;
      run_model; rewrite ?Efault; run_model; fold lc; fold w1;
      rewrite Hrun; reflexivity.
  - unfold fetched. cbn [heap set_heap db_rows].
    split; [reflexivity |]. split; [exact Hlist |]. split; [exact Hdicts |].
    split; [now constructor |]. split.
    + intros l Hin. apply elem_of_cons in Hin as [-> | Hin]; [exact Hfresh |].
      specialize (Hnew l Hin). rewrite lookup_insert_ne in Hnew; [exact Hnew |].
      intros <-. contradiction.
    + intros l Hl. rewrite Hold.
      * rewrite lookup_insert_ne; [reflexivity |]. intros <-. apply Hl. now left.
      * intros ->. apply Hl. now left.
      * intros Hin. apply Hl. now right.
Qed.

Lemma fetch_contacts_fault e w x :
  read_fault e (db_conns w) = Some x ->
  fetch_contacts e w = (Raise x, set_db_conns (S (db_conns w)) w).
Proof.
  intros Hfault. unfold read_fault in Hfault.
  unfold fetch_contacts, get_db_connection. run_model.
  destruct (db_fault e (db_conns w)) as [[[| |] y] |] eqn:Efault;
    try discriminate;
    injection Hfault as ->; run_model; rewrite ?Efault; run_model.
  - now destruct (is_psycopg2_error x).
  - unfold set_db_open, set_db_conns. cbn. reflexivity.
Qed.

(** ** Template styles *)

Lemma style_names_cases s :
  s ∈ style_names <-> s = "modern" \/ s = "dark" \/ s = "neon" \/ s = "retro".
Proof.
  unfold style_names. cbn [map fst get_template_files].
  rewrite !elem_of_cons, elem_of_nil. tauto.
Qed.

Lemma select_template_style_given style e w :
  py_eq_str style "random" = false ->
  select_template_style style e w = (Ret style, w).
Proof. intros H. unfold select_template_style. now rewrite H. Qed.

Lemma unrecognized_not_random s :
  unrecognized s -> py_eq_str (PStr s) "random" = false.
Proof.
  intros [_ Hne]. cbn [py_eq_str]. now apply String.eqb_neq.
Qed.

Lemma template_filename_unrecognized s :
  s ∉ style_names -> template_filename s = "modern_template.html".
Proof.
  intros Hs. rewrite style_names_cases in Hs.
  unfold template_filename, get_template_files. cbn [assoc_get].
  destruct (String.eqb_spec "modern" s) as [<- | _]; [tauto |].
  destruct (String.eqb_spec "dark" s) as [<- | _]; [tauto |].
  destruct (String.eqb_spec "neon" s) as [<- | _]; [tauto |].
  destruct (String.eqb_spec "retro" s) as [<- | _]; [tauto |].
  reflexivity.
Qed.

(** [load_template] for a style given by name reads [template_filename]. *)
Lemma load_template_named s dir e w :
  load_template (PStr s) dir e w
  = (let template_path := path_join dir (template_filename s) in
     let* found := os_path_exists template_path in
     if negb found then
       raise (Exn FileNotFoundError ("Template file not found: " ++ template_path))
     else read_text_file template_path) e w.
Proof. reflexivity. Qed.

Lemma load_template_unrecognized s dir e w :
  s ∉ style_names ->
  load_template (PStr s) dir e w = load_template (PStr "modern") dir e w.
Proof.
  intros Hs. rewrite !load_template_named.
  now rewrite (template_filename_unrecognized s Hs).
Qed.

Lemma load_template_run s dir e w text :
  files w !! path_join dir (template_filename s) = Some text ->
  fs_fault e (OpRead (path_join dir (template_filename s))) = None ->
  load_template (PStr s) dir e w = (Ret text, w).
Proof.
  intros Hfile Hfault. rewrite load_template_named. run_model.
  unfold fs_exists. rewrite Hfile.
  rewrite bool_decide_eq_true_2 by eauto. cbn [orb negb].
  rewrite Hfault. now rewrite Hfile.
Qed.

Lemma load_template_missing s dir e w :
  fs_exists w (path_join dir (template_filename s)) = false ->
  load_template (PStr s) dir e w
  = (Raise (Exn FileNotFoundError
              ("Template file not found: "
               ++ path_join dir (template_filename s))), w).
Proof.
  intros Hmissing. rewrite load_template_named. run_model.
  now rewrite Hmissing.
Qed.

Lemma drawn_style_in_set e w : drawn_style e w ∈ style_names.
Proof.
  unfold drawn_style.
  pose proof (Nat.mod_upper_bound (random_draw e (rng_calls w))
                (length style_names)) as Hlt.
  cbn [style_names map fst get_template_files length] in *.
  apply style_names_cases.
  destruct (random_draw e (rng_calls w) mod 4) as [| [| [| [| n]]]];
    cbn; [tauto | tauto | tauto | tauto | lia].
Qed.

Lemma style_names_not_random s : s ∈ style_names -> s <> "random".
Proof.
  rewrite style_names_cases. intros [-> | [-> | [-> | ->]]]; discriminate.
Qed.

Lemma select_template_style_run style e w :
  select_template_style style e w
  = (Ret (resolved_style e w style), advance_rng style w).
Proof.
  unfold select_template_style, resolved_style, advance_rng, drawn_style.
  destruct (py_eq_str style "random"); [| reflexivity].
  run_model. fold style_names.
  pose proof (Nat.mod_upper_bound (random_draw e (rng_calls w))
                (length style_names)) as Hlt.
  destruct (style_names !! (random_draw e (rng_calls w) mod length style_names))
    as [s |] eqn:Hs; [reflexivity |].
  apply lookup_ge_None in Hs. cbn [style_names map length get_template_files] in *.
  lia.
Qed.

Lemma advance_rng_frame style w :
  db_rows (advance_rng style w) = db_rows w
  /\ files (advance_rng style w) = files w
  /\ dirs (advance_rng style w) = dirs w
  /\ heap (advance_rng style w) = heap w
  /\ http_log (advance_rng style w) = http_log w.
Proof. unfold advance_rng. now destruct (py_eq_str style "random"). Qed.

(** ** [generate_html_file] *)

(** The run in which nothing fails. *)
Lemma generate_html_file_run e w lc items style s name text html :
  let out := OUTPUT_DIR (cfg e) in
  let template_path := path_join (TEMPLATES_DIR (cfg e)) (template_filename s) in
  let path := path_join out name in
  let h' := foldl restyle (heap w) items in
  contact_list (heap w) lc items ->
  fs_fault e (OpMakedirs out) = None ->
  files w !! out = None ->
  resolved_style e w style = PStr s ->
  files w !! template_path = Some text ->
  fs_fault e (OpRead template_path) = None ->
  jinja_render e text h' (template_kwargs e (PRef lc)) = Ret html ->
  fs_fault e (OpWrite path) = None ->
  path ∉ ({[out]} ∪ dirs w : gset string) ->
  generate_html_file (PRef lc) style (PStr name) e w
  = (Ret (path, PStr s),
     set_files (<[path := html]> (files w))
       (set_heap h'
          (advance_rng style (set_dirs ({[out]} ∪ dirs w) w)))).
Proof.
  intros out template_path path h' Hlist Hmk Hout Hsel Hfile Hread Hjinja
    Hwrite Hpath.
  unfold generate_html_file. unfold bind at 1, ask.
  fold out. unfold bind at 1, os_makedirs. rewrite Hmk, Hout.
  unfold bind at 1. rewrite select_template_style_run.
  change (resolved_style e (set_dirs ({[out]} ∪ dirs w) w) style)
    with (resolved_style e w style). rewrite Hsel.
  set (w2 := advance_rng style (set_dirs ({[out]} ∪ dirs w) w)).
  destruct (advance_rng_frame style (set_dirs ({[out]} ∪ dirs w) w))
    as (_ & Hfiles & Hdirs & Hheap & _). fold w2 in Hfiles, Hdirs, Hheap.
  cbn [files dirs heap set_dirs] in Hfiles, Hdirs, Hheap.
  unfold bind at 1. rewrite (load_template_run s _ e w2 text);
    [| rewrite Hfiles; exact Hfile | exact Hread].
  unfold bind at 1, prepare_template_data. unfold bind at 1.
  rewrite (prepare_contact_data_run e w2 lc items)
    by (rewrite Hheap; exact Hlist).
  run_model. rewrite Hheap. fold h'. fold (template_kwargs e (PRef lc)).
  rewrite Hjinja. run_model. fold path. rewrite Hwrite, Hdirs.
  rewrite bool_decide_eq_false_2 by exact Hpath.
  rewrite Hfiles. reflexivity.
Qed.

(** Whatever happens, a style that comes back is the resolved one, the
    filename was a string, and the file is there. *)
Lemma generate_html_file_returned contacts style output_filename e w p sel w' :
  generate_html_file contacts style output_filename e w = (Ret (p, sel), w') ->
  sel = resolved_style e w style
  /\ exists name,
       output_filename = PStr name
       /\ p = path_join (OUTPUT_DIR (cfg e)) name
       /\ is_Some (files w' !! p).
Proof.
  unfold generate_html_file. unfold bind at 1, ask.
  unfold bind at 1.
  destruct (os_makedirs (OUTPUT_DIR (cfg e)) e w) as [[[] | x] w1] eqn:Hmk;
    [| discriminate].
  assert (Hrng : rng_calls w1 = rng_calls w).
  { unfold os_makedirs in Hmk.
    destruct (fs_fault e _); [discriminate |].
    destruct (files w !! _); [discriminate |]. now injection Hmk as <-. }
  unfold bind at 1. rewrite select_template_style_run.
  unfold bind at 1. destruct (load_template _ _ e _) as [[text | x] w3];
    [| discriminate].
  unfold bind at 1. destruct (prepare_template_data _ e w3) as [[data | x] w4];
    [| discriminate].
  unfold bind at 1. destruct (render_custom_template _ _ e w4) as [[html | x] w5];
    [| discriminate].
  unfold bind at 1.
  destruct output_filename as [| | | | name | | |];
    try (unfold os_path_join, type_error, raise; discriminate).
  unfold os_path_join, ret at 1.
  unfold bind at 1, write_text_file.
  destruct (fs_fault e _); [discriminate |].
  destruct (bool_decide _); [discriminate |].
  unfold ret. intros [= <- <- <-]. split.
  - unfold resolved_style, drawn_style. now rewrite Hrng.
  - exists name. split; [reflexivity |]. split; [reflexivity |].
    cbn [files set_files]. rewrite lookup_insert_eq. eauto.
Qed.

(** C6. The requested style "random" resolves to one of modern, dark, neon
    and retro, never to the literal "random"; so the style
    [generate_html_file] returns for "random" is a name of that set, and
    when nothing fails it does return. *)
Theorem random_style_resolves_to_fixed_set :
  (forall e w,
     exists s,
       fst (select_template_style (PStr "random") e w) = Ret (PStr s)
       /\ s ∈ style_names /\ s <> "random")
  /\ (forall contacts output_filename e w p sel w',
        generate_html_file contacts (PStr "random") output_filename e w
        = (Ret (p, sel), w') ->
        exists s, sel = PStr s /\ s ∈ style_names /\ s <> "random")
  /\ (forall e w lc items name text html,
        let s := drawn_style e w in
        let out := OUTPUT_DIR (cfg e) in
        let template_path :=
          path_join (TEMPLATES_DIR (cfg e)) (template_filename s) in
        let path := path_join out name in
        contact_list (heap w) lc items ->
        fs_fault e (OpMakedirs out) = None ->
        files w !! out = None ->
        files w !! template_path = Some text ->
        fs_fault e (OpRead template_path) = None ->
        jinja_render e text (foldl restyle (heap w) items)
          (template_kwargs e (PRef lc)) = Ret html ->
        fs_fault e (OpWrite path) = None ->
        path ∉ ({[out]} ∪ dirs w : gset string) ->
        fst (generate_html_file (PRef lc) (PStr "random") (PStr name) e w)
        = Ret (path, PStr s)
        /\ s ∈ style_names /\ s <> "random").
Proof.
  split; [| split].
  - intros e w. exists (drawn_style e w).
    rewrite select_template_style_run. cbn [fst].
    pose proof (drawn_style_in_set e w) as Hin.
    split; [reflexivity |]. split; [exact Hin |].
    now apply style_names_not_random.
  - intros contacts output_filename e w p sel w' Hrun.
    apply generate_html_file_returned in Hrun as [-> _].
    exists (drawn_style e w). pose proof (drawn_style_in_set e w) as Hin.
    split; [reflexivity |]. split; [exact Hin |].
    now apply style_names_not_random.
  - intros e w lc items name text html s out template_path path
      Hlist Hmk Hout Hfile Hread Hjinja Hwrite Hpath.
    pose proof (drawn_style_in_set e w) as Hin. fold s in Hin.
    split; [| split; [exact Hin | now apply style_names_not_random]].
    rewrite (generate_html_file_run e w lc items (PStr "random") s name text html);
      try assumption; reflexivity.
Qed.

Lemma random_style_resolves_to_fixed_set_witness :
  fst (generate_html_file (PRef 0) (PStr "random") (PStr "index.html")
         Sample.env0 Sample.world1)
  = Ret ("static/generated/index.html", PStr "modern").
Proof.
  destruct random_style_resolves_to_fixed_set as (_ & _ & H).
  destruct (H Sample.env0 Sample.world1 0%nat [PRef 1; PRef 2] "index.html"
              "modern" "<html>modern</html>") as [Hrun _].
  - exact sample_contact_list.
  - reflexivity.
  - reflexivity.
  - reflexivity.
  - reflexivity.
  - reflexivity.
  - reflexivity.
  - vm_compute. discriminate.
  - exact Hrun.
Defined.

(** ** Unrecognized style names *)

Lemma generate_html_file_unrecognized s contacts output_filename e w :
  unrecognized s ->
  generate_html_file contacts (PStr s) output_filename e w
  = match generate_html_file contacts (PStr "modern") output_filename e w with
    | (Ret (p, _), w') => (Ret (p, PStr s), w')
    | (Raise x, w') => (Raise x, w')
    end.
Proof.
  intros Hs. pose proof (unrecognized_not_random s Hs) as Hnr.
  destruct Hs as [Hs _].
  unfold generate_html_file, bind, ask.
  destruct (os_makedirs (OUTPUT_DIR (cfg e)) e w) as [[[] | x] w1];
    cbv beta iota; [| reflexivity].
  rewrite !select_template_style_given by (exact Hnr || reflexivity).
  cbv beta iota. rewrite (load_template_unrecognized s _ e w1 Hs).
  destruct (load_template _ _ e w1) as [[text | x] w3];
    cbv beta iota; [| reflexivity].
  destruct (prepare_template_data _ e w3) as [[data | x] w4];
    cbv beta iota; [| reflexivity].
  destruct (render_custom_template _ _ e w4) as [[html | x] w5];
    cbv beta iota; [| reflexivity].
  destruct (os_path_join _ _ e w5) as [[path | x] w6];
    cbv beta iota; [| reflexivity].
  destruct (write_text_file _ _ e w6) as [[[] | x] w7]; reflexivity.
Qed.

Lemma render_run s dir lc items text html e w :
  py_eq_str (PStr s) "random" = false ->
  contact_list (heap w) lc items ->
  files w !! path_join dir (template_filename s) = Some text ->
  fs_fault e (OpRead (path_join dir (template_filename s))) = None ->
  jinja_render e text (foldl restyle (heap w) items)
    (template_kwargs e (PRef lc)) = Ret html ->
  render (PStr s) dir (PRef lc) e w
  = (Ret html, set_heap (foldl restyle (heap w) items) w).
Proof.
  intros Hnr Hlist Hfile Hread Hjinja. unfold render.
  unfold bind at 1. rewrite select_template_style_given by exact Hnr.
  unfold bind at 1. rewrite (load_template_run s dir e w text Hfile Hread).
  unfold bind at 1, prepare_template_data. unfold bind at 1.
  rewrite (prepare_contact_data_run e w lc items Hlist).
  run_model. fold (template_kwargs e (PRef lc)). now rewrite Hjinja.
Qed.

(** C7. Rendering with a style name outside modern, dark, neon and retro
    (and different from "random") is rendering with "modern": for the same
    contacts, templates directory and timestamp the two calls have the same
    outcome, the same HTML string, and [generate_html_file] writes the same
    file at the same path and leaves the same world behind, the returned
    style name being the only difference.  The unrecognized name is no
    failure: where the modern template is readable and evaluates, the
    rendering returns its HTML. *)
Theorem unrecognized_style_renders_as_modern s dir contacts e w :
  unrecognized s ->
  render (PStr s) dir contacts e w = render (PStr "modern") dir contacts e w
  /\ (forall output_filename,
      generate_html_file contacts (PStr s) output_filename e w
      = match generate_html_file contacts (PStr "modern") output_filename e w with
        | (Ret (path, _), w') => (Ret (path, PStr s), w')
        | (Raise x, w') => (Raise x, w')
        end)
  /\ (forall lc items text html,
      contacts = PRef lc ->
      contact_list (heap w) lc items ->
      files w !! path_join dir "modern_template.html" = Some text ->
      fs_fault e (OpRead (path_join dir "modern_template.html")) = None ->
      jinja_render e text (foldl restyle (heap w) items)
        (template_kwargs e (PRef lc)) = Ret html ->
      fst (render (PStr s) dir contacts e w) = Ret html).
Proof.
  intros Hs. pose proof (unrecognized_not_random s Hs) as Hnr.
  split; [| split].
  - unfold render, bind.
    rewrite !select_template_style_given by (exact Hnr || reflexivity).
    cbv beta iota.
    now rewrite (load_template_unrecognized s dir e w (proj1 Hs)).
  - intros output_filename.
    now apply generate_html_file_unrecognized.
  - intros lc items text html -> Hlist Hfile Hread Hjinja.
    rewrite (render_run s dir lc items text html e w); try assumption.
    + reflexivity.
    + now rewrite (template_filename_unrecognized s (proj1 Hs)).
    + now rewrite (template_filename_unrecognized s (proj1 Hs)).
Qed.

Lemma bogus_unrecognized : unrecognized Sample.bogus.
Proof.
  split; [| discriminate]. rewrite style_names_cases.
  intros [H | [H | [H | H]]]; discriminate.
Qed.

Lemma unrecognized_style_renders_as_modern_witness :
  render (PStr Sample.bogus) "templates" (PRef 0) Sample.env0 Sample.world1
  = render (PStr "modern") "templates" (PRef 0) Sample.env0 Sample.world1
  /\ fst (render (PStr Sample.bogus) "templates" (PRef 0)
            Sample.env0 Sample.world1)
     = Ret "<html>modern</html>".
Proof.
  destruct (unrecognized_style_renders_as_modern Sample.bogus "templates"
              (PRef 0) Sample.env0 Sample.world1 bogus_unrecognized)
    as (Hsame & _ & Hreturns).
  split; [exact Hsame |].
  apply (Hreturns 0%nat [PRef 1; PRef 2] "modern").
  - reflexivity.
  - exact sample_contact_list.
  - reflexivity.
  - reflexivity.
  - reflexivity.
Defined.

(** ** [POST /api/generate] *)

Lemma api_generate_html_body_fields body e w :
  object_or_absent body ->
  api_generate_html_body (Ret body) e w
  = api_generate_html_resolved
      (request_field body "template_style" (PStr (TEMPLATE_STYLE (cfg e))))
      (request_field body "output_filename" (PStr "index.html")) e w.
Proof.
  intros Hbody. unfold api_generate_html_body, request_field.
  destruct body as [| | | | | | entries |]; try contradiction.
  - reflexivity.
  - destruct entries as [| kv entries]; reflexivity.
Qed.

Lemma fetched_contact_list w lc locs w' :
  fetched w lc locs w' -> contact_list (heap w') lc (map PRef locs).
Proof.
  intros (_ & Hlist & Hdicts & _). split; [exact Hlist |].
  apply Forall_forall. intros v Hv.
  apply list_elem_of_fmap in Hv as (l & -> & Hl).
  apply list_elem_of_lookup in Hl as [i Hi].
  destruct (Forall2_lookup_l _ _ _ _ _ Hdicts Hi) as (r & _ & Hr).
  now exists l, (row_dict r).
Qed.

Lemma fetched_length w lc locs w' :
  fetched w lc locs w' -> length locs = length (db_rows w).
Proof. intros (_ & _ & Hdicts & _). now apply Forall2_length in Hdicts. Qed.

Lemma fetched_frame w lc locs w' :
  fetched w lc locs w' ->
  db_rows w' = db_rows w /\ files w' = files w /\ dirs w' = dirs w
  /\ rng_calls w' = rng_calls w /\ http_log w' = http_log w
  /\ db_conns w' = S (db_conns w) /\ db_open w' = db_open w.
Proof. intros (-> & _). cbn. repeat split. Qed.

Lemma api_generate_html_resolved_no_contacts style name e w :
  read_fault e (db_conns w) = None ->
  db_rows w = [] ->
  exists w',
    api_generate_html_resolved style name e w
    = (Ret (Response (jsonify [("error", PStr "No contacts found")]) 404), w')
    /\ files w' = files w /\ dirs w' = dirs w.
Proof.
  intros Hfault Hrows.
  destruct (fetch_contacts_run e w Hfault) as (lc & locs & w1 & Hrun & Hf).
  pose proof (fetched_length _ _ _ _ Hf) as Hlen. rewrite Hrows in Hlen.
  destruct locs; [| discriminate].
  destruct (fetched_frame _ _ _ _ Hf) as (_ & Hfiles & Hdirs & _).
  destruct Hf as (_ & Hlist & _).
  exists w1. split; [| split; assumption].
  unfold api_generate_html_resolved. unfold bind at 1. rewrite Hrun.
  unfold bind at 1, truthy, py_truthy. rewrite Hlist. reflexivity.
Qed.

Lemma resolved_style_rng e w w' style :
  rng_calls w' = rng_calls w ->
  resolved_style e w' style = resolved_style e w style.
Proof. intros H. unfold resolved_style, drawn_style. now rewrite H. Qed.

Lemma generate_html_file_missing_template e w contacts style output_filename s :
  let out := OUTPUT_DIR (cfg e) in
  let template_path := path_join (TEMPLATES_DIR (cfg e)) (template_filename s) in
  fs_fault e (OpMakedirs out) = None ->
  files w !! out = None ->
  resolved_style e w style = PStr s ->
  fs_exists (set_dirs ({[out]} ∪ dirs w) w) template_path = false ->
  generate_html_file contacts style output_filename e w
  = (Raise (Exn FileNotFoundError ("Template file not found: " ++ template_path)),
     advance_rng style (set_dirs ({[out]} ∪ dirs w) w)).
Proof.
  intros out template_path Hmk Hout Hsel Hmissing.
  unfold generate_html_file. unfold bind at 1, ask.
  fold out. unfold bind at 1, os_makedirs. rewrite Hmk, Hout.
  unfold bind at 1. rewrite select_template_style_run.
  change (resolved_style e (set_dirs ({[out]} ∪ dirs w) w) style)
    with (resolved_style e w style). rewrite Hsel.
  unfold bind at 1. rewrite load_template_missing; [reflexivity |].
  fold template_path. unfold fs_exists in *.
  destruct (advance_rng_frame style (set_dirs ({[out]} ∪ dirs w) w))
    as (_ & -> & -> & _). exact Hmissing.
Qed.

(** The run of the view in which nothing fails. *)
Lemma api_generate_html_resolved_run style name s text e w :
  let out := OUTPUT_DIR (cfg e) in
  let template_path := path_join (TEMPLATES_DIR (cfg e)) (template_filename s) in
  let path := path_join out name in
  read_fault e (db_conns w) = None ->
  db_rows w <> [] ->
  fs_fault e (OpMakedirs out) = None ->
  files w !! out = None ->
  resolved_style e w style = PStr s ->
  files w !! template_path = Some text ->
  fs_fault e (OpRead template_path) = None ->
  (forall h kwargs, exists html, jinja_render e text h kwargs = Ret html) ->
  fs_fault e (OpWrite path) = None ->
  path ∉ ({[out]} ∪ dirs w : gset string) ->
  exists w',
    api_generate_html_resolved style (PStr name) e w
    = (Ret (Response (generated_body path (PStr s) (length (db_rows w)) name)
              200), w')
    /\ is_Some (files w' !! path).
Proof.
  intros out template_path path Hfault Hrows Hmk Hout Hsel Hfile Hread Hjinja
    Hwrite Hpath.
  destruct (fetch_contacts_run e w Hfault) as (lc & locs & w1 & Hrun & Hf).
  pose proof (fetched_length _ _ _ _ Hf) as Hlen.
  pose proof (fetched_contact_list _ _ _ _ Hf) as Hlist.
  destruct (fetched_frame _ _ _ _ Hf) as (_ & Hfiles & Hdirs & Hrng & _).
  destruct (Hjinja (foldl restyle (heap w1) (map PRef locs))
              (template_kwargs e (PRef lc))) as [html Hhtml].
  eexists. split.
  - unfold api_generate_html_resolved. unfold bind at 1. rewrite Hrun.
    unfold bind at 1, truthy, py_truthy. rewrite (proj1 Hlist).
    destruct locs as [| l locs].
    { destruct (db_rows w); [contradiction | discriminate]. }
    cbn [map negb]. unfold try_except. unfold bind at 1.
    rewrite (generate_html_file_run e w1 lc (map PRef (l :: locs)) style s
               name text html); fold out; fold path;
      try assumption;
      try (rewrite ?Hfiles, ?Hdirs; assumption).
    + unfold bind at 1, py_len. cbn [heap set_files set_heap].
      destruct (foldl_restyle_lookup (map PRef (l :: locs)) (heap w1) lc)
        as [Hsame _].
      destruct (advance_rng_frame style (set_dirs ({[out]} ∪ dirs w1) w1))
        as (_ & _ & _ & Hheap & _).
      rewrite Hsame by (eapply contact_list_not_member; exact Hlist).
      rewrite (proj1 Hlist). unfold ret, generated_body.
      rewrite length_map, Hlen. reflexivity.
    + rewrite <- Hsel. now apply resolved_style_rng.
  - cbn [files set_files]. rewrite lookup_insert_eq. eauto.
Qed.

Lemma api_generate_html_resolved_missing_template style name s e w :
  let out := OUTPUT_DIR (cfg e) in
  let template_path := path_join (TEMPLATES_DIR (cfg e)) (template_filename s) in
  read_fault e (db_conns w) = None ->
  db_rows w <> [] ->
  fs_fault e (OpMakedirs out) = None ->
  files w !! out = None ->
  resolved_style e w style = PStr s ->
  fs_exists (set_dirs ({[out]} ∪ dirs w) w) template_path = false ->
  exists w',
    api_generate_html_resolved style name e w
    = (Ret (Response
              (jsonify [("error",
                         PStr ("Template file not found: " ++ template_path))])
              400), w')
    /\ files w' = files w.
Proof.
  intros out template_path Hfault Hrows Hmk Hout Hsel Hmissing.
  destruct (fetch_contacts_run e w Hfault) as (lc & locs & w1 & Hrun & Hf).
  pose proof (fetched_length _ _ _ _ Hf) as Hlen.
  pose proof (fetched_contact_list _ _ _ _ Hf) as Hlist.
  destruct (fetched_frame _ _ _ _ Hf) as (_ & Hfiles & Hdirs & Hrng & _).
  eexists. split.
  - unfold api_generate_html_resolved. unfold bind at 1. rewrite Hrun.
    unfold bind at 1, truthy, py_truthy. rewrite (proj1 Hlist).
    destruct locs as [| l locs].
    { destruct (db_rows w); [contradiction | discriminate]. }
    cbn [map negb]. unfold try_except. unfold bind at 1.
    rewrite (generate_html_file_missing_template e w1 _ style _ s);
      fold out; fold template_path.
    + reflexivity.
    + exact Hmk.
    + now rewrite Hfiles.
    + rewrite <- Hsel. now apply resolved_style_rng.
    + unfold fs_exists in *. cbn [files dirs set_dirs] in *.
      now rewrite Hfiles, Hdirs.
  - destruct (advance_rng_frame style (set_dirs ({[out]} ∪ dirs w1) w1))
      as (_ & -> & _). exact Hfiles.
Qed.

Lemma load_template_frame sel dir e w :
  snd (load_template sel dir e w) = w.
Proof.
  unfold load_template.
  change (str_dict_getitem get_template_files "modern")
    with (ret (A := string) "modern_template.html").
  unfold bind at 1, ret at 1.
  assert (Hrest : forall fname,
    snd ((let* found := os_path_exists (path_join dir fname) in
          if negb found then
            raise (Exn FileNotFoundError
                     ("Template file not found: " ++ path_join dir fname))
          else read_text_file (path_join dir fname)) e w) = w).
  { intros fname. run_model. destruct (fs_exists w _); cbn [negb]; [| reflexivity].
    destruct (fs_fault e _); [reflexivity |].
    destruct (files w !! _); [reflexivity |].
    now destruct (bool_decide _). }
  destruct sel; unfold str_dict_get, type_error, raise, bind, ret;
    try reflexivity; apply Hrest.
Qed.

Lemma fetch_contacts_returned e w v w' :
  fetch_contacts e w = (Ret v, w') ->
  exists lc locs, v = PRef lc /\ fetched w lc locs w'.
Proof.
  intros Hrun. destruct (read_fault e (db_conns w)) as [x |] eqn:Hfault.
  - rewrite (fetch_contacts_fault e w x Hfault) in Hrun. discriminate.
  - destruct (fetch_contacts_run e w Hfault) as (lc & locs & w1 & Hrun1 & Hf).
    rewrite Hrun1 in Hrun. injection Hrun as <- <-. now exists lc, locs.
Qed.

(** Every answer with status 200 reports the file that was written under
    the filename of the request. *)
Lemma api_generate_html_resolved_200 style output_filename e w r w' :
  api_generate_html_resolved style output_filename e w = (Ret r, w') ->
  resp_status r = 200%Z ->
  exists name,
    output_filename = PStr name
    /\ resp_body r
       = generated_body (path_join (OUTPUT_DIR (cfg e)) name)
           (resolved_style e w style) (length (db_rows w)) name
    /\ is_Some (files w' !! path_join (OUTPUT_DIR (cfg e)) name).
Proof.
  unfold api_generate_html_resolved. unfold bind at 1.
  destruct (fetch_contacts e w) as [[contacts | x] w1] eqn:Hfetch;
    [| discriminate].
  destruct (fetch_contacts_returned _ _ _ _ Hfetch) as (lc & locs & -> & Hf).
  pose proof (fetched_length _ _ _ _ Hf) as Hlen.
  pose proof (fetched_contact_list _ _ _ _ Hf) as Hlist.
  destruct (fetched_frame _ _ _ _ Hf) as (_ & _ & _ & Hrng & _).
  unfold bind at 1, truthy.
  destruct (py_truthy (heap w1) (PRef lc)); cbn [negb].
  2:{ unfold ret. intros [= <- _] Hstatus. discriminate. }
  unfold try_except. unfold bind at 1.
  destruct (generate_html_file _ _ _ e w1) as [[[p sel] | x] w2] eqn:Hgen.
  2:{ destruct (is_file_not_found x); [| discriminate].
      unfold ret. intros [= <- _] Hstatus. discriminate. }
  destruct (generate_html_file_returned _ _ _ _ _ _ _ _ Hgen)
    as (-> & name & -> & -> & Hfile).
  assert (Hheap : heap w2 !! lc = Some (OList (map PRef locs))).
  { clear Hfile. revert Hgen. unfold generate_html_file.
    unfold bind at 1, ask. unfold bind at 1, os_makedirs.
    destruct (fs_fault e _); [discriminate |].
    destruct (files w1 !! _); [discriminate |].
    unfold bind at 1. rewrite select_template_style_run.
    unfold bind at 1.
    set (w3 := advance_rng _ _).
    assert (Hheap3 : heap w3 = heap w1).
    { unfold w3. now destruct (advance_rng_frame style
        (set_dirs ({[OUTPUT_DIR (cfg e)]} ∪ dirs w1) w1)) as (_ & _ & _ & -> & _). }
    pose proof (load_template_frame (resolved_style e w1 style)
                  (TEMPLATES_DIR (cfg e)) e w3) as Hframe.
    destruct (load_template _ _ e w3) as [[text | x] w4];
      [| discriminate].
    cbn [snd] in Hframe. subst w4.
    unfold bind at 1, prepare_template_data. unfold bind at 1.
    rewrite (prepare_contact_data_run e w3 lc (map PRef locs))
      by (rewrite Hheap3; exact Hlist).
    run_model.
    destruct (jinja_render e _ _ _); [| discriminate]. run_model.
    destruct (fs_fault e _); [discriminate |].
    destruct (bool_decide _); [discriminate |].
    intros [= <-]. cbn [heap set_files set_heap].
    destruct (foldl_restyle_lookup (map PRef locs) (heap w3) lc) as [Hsame _].
    rewrite Hsame by (eapply contact_list_not_member; exact Hlist).
    rewrite Hheap3. exact (proj1 Hlist). }
  unfold bind at 1, py_len. rewrite Hheap. unfold ret.
  intros [= <- <-] _. exists name. cbn [resp_body format_value].
  split; [reflexivity |]. split; [| exact Hfile].
  unfold generated_body. rewrite length_map, Hlen.
  now rewrite (resolved_style_rng e w w1 style Hrng).
Qed.

Lemma api_generate_html_run request e w :
  api_generate_html request e w
  = match api_generate_html_body request e w with
    | (Ret r, w') => (Ret r, w')
    | (Raise x, w') =>
        (Ret (Response
                (jsonify [("error",
                           PStr (if is_psycopg2_error x
                                 then "Database connection failed"
                                 else "Internal server error"))])
                500), w')
    end.
Proof.
  unfold api_generate_html, handle_db_errors, try_except.
  destruct (api_generate_html_body request e w) as [[r | x] w']; [reflexivity |].
  now destruct (is_psycopg2_error x).
Qed.


(** C3, as amended. [POST /api/generate] answers 404 when the store holds
    no contact, before any file or directory is written, and 400 when the
    template file of the resolved style does not exist, again without
    writing a file. *)
Theorem generate_fails_without_contacts_or_template body e w :
  object_or_absent body ->
  read_fault e (db_conns w) = None ->
  (db_rows w = [] ->
   exists w',
     api_generate_html (Ret body) e w
     = (Ret (Response (jsonify [("error", PStr "No contacts found")]) 404), w')
     /\ files w' = files w /\ dirs w' = dirs w)
  /\ (forall s,
      let out := OUTPUT_DIR (cfg e) in
      let template_path :=
        path_join (TEMPLATES_DIR (cfg e)) (template_filename s) in
      db_rows w <> [] ->
      fs_fault e (OpMakedirs out) = None ->
      files w !! out = None ->
      resolved_style e w
        (request_field body "template_style" (PStr (TEMPLATE_STYLE (cfg e))))
      = PStr s ->
      fs_exists (set_dirs ({[out]} ∪ dirs w) w) template_path = false ->
      exists w',
        api_generate_html (Ret body) e w
        = (Ret (Response
                  (jsonify [("error",
                             PStr ("Template file not found: " ++ template_path))])
                  400), w')
        /\ files w' = files w).
Proof.
  intros Hbody Hfault. split.
  - intros Hrows.
    destruct (api_generate_html_resolved_no_contacts
                (request_field body "template_style" (PStr (TEMPLATE_STYLE (cfg e))))
                (request_field body "output_filename" (PStr "index.html"))
                e w Hfault Hrows) as (w' & Hrun & Hfiles & Hdirs).
    exists w'. split; [| split; assumption].
    rewrite api_generate_html_run, api_generate_html_body_fields by exact Hbody.
    now rewrite Hrun.
  - intros s out template_path Hrows Hmk Hout Hsel Hmissing.
    destruct (api_generate_html_resolved_missing_template
                (request_field body "template_style" (PStr (TEMPLATE_STYLE (cfg e))))
                (request_field body "output_filename" (PStr "index.html"))
                s e w Hfault Hrows Hmk Hout Hsel Hmissing)
      as (w' & Hrun & Hfiles).
    exists w'. split; [| exact Hfiles].
    rewrite api_generate_html_run, api_generate_html_body_fields by exact Hbody.
    now rewrite Hrun.
Qed.

Lemma generate_fails_without_contacts_or_template_witness :
  (exists w',
     api_generate_html (Ret PNone) Sample.env0 (Sample.world0 [])
     = (Ret (Response (jsonify [("error", PStr "No contacts found")]) 404), w')
     /\ files w' = files (Sample.world0 [])
     /\ dirs w' = dirs (Sample.world0 []))
  /\ (exists w',
      api_generate_html (Ret PNone) Sample.env0 Sample.world_no_templates
      = (Ret (Response
                (jsonify [("error",
                           PStr "Template file not found: templates/modern_template.html")])
                400), w')
      /\ files w' = files Sample.world_no_templates).
Proof.
  split.
  - apply (generate_fails_without_contacts_or_template PNone Sample.env0
             (Sample.world0 [])); reflexivity || exact I.
  - destruct (generate_fails_without_contacts_or_template PNone Sample.env0
                Sample.world_no_templates I eq_refl) as [_ H].
    apply (H "modern"); try reflexivity. discriminate.
Defined.

(** C3, as first stated, fails: with an empty store the answer is 404, not
    400. *)
Lemma generate_without_contacts_is_404_not_400 :
  db_rows (Sample.world0 []) = []
  /\ exists r,
       fst (api_generate_html (Ret PNone) Sample.env0 (Sample.world0 [])) = Ret r
       /\ resp_status r = 404%Z
       /\ resp_status r <> 400%Z.
Proof.
  split; [reflexivity |]. eexists. split; [vm_compute; reflexivity |].
  split; [reflexivity | discriminate].
Qed.

(** C8. For a style name outside modern, dark, neon and retro (and
    different from "random"), [generate_html_file] renders the modern
    template and writes that, yet the style it returns is the unrecognized
    name itself: whenever it returns, and it does return when nothing
    fails.  [POST /api/generate] echoes it: every answer with status 200
    to a request for that style carries it as [template_style], and such
    an answer is given when nothing fails.  So a name outside the fixed set
    reaches the caller. *)
Theorem unrecognized_style_returned_verbatim s :
  unrecognized s ->
  (s ∉ style_names)
  /\ (forall contacts output_filename e w p sel w',
      generate_html_file contacts (PStr s) output_filename e w
      = (Ret (p, sel), w') ->
      sel = PStr s)
  /\ (forall e w lc items name text html,
      let out := OUTPUT_DIR (cfg e) in
      let modern_path :=
        path_join (TEMPLATES_DIR (cfg e)) "modern_template.html" in
      let path := path_join out name in
      contact_list (heap w) lc items ->
      fs_fault e (OpMakedirs out) = None ->
      files w !! out = None ->
      files w !! modern_path = Some text ->
      fs_fault e (OpRead modern_path) = None ->
      jinja_render e text (foldl restyle (heap w) items)
        (template_kwargs e (PRef lc)) = Ret html ->
      fs_fault e (OpWrite path) = None ->
      path ∉ ({[out]} ∪ dirs w : gset string) ->
      let run := generate_html_file (PRef lc) (PStr s) (PStr name) e w in
      fst run = Ret (path, PStr s)
      /\ files (snd run) !! path = Some html)
  /\ (forall body e w r w',
      object_or_absent body ->
      request_field body "template_style" (PStr (TEMPLATE_STYLE (cfg e)))
      = PStr s ->
      api_generate_html (Ret body) e w = (Ret r, w') ->
      resp_status r = 200%Z ->
      exists path count name,
        resp_body r = generated_body path (PStr s) count name)
  /\ (forall body name text e w,
      let out := OUTPUT_DIR (cfg e) in
      let modern_path :=
        path_join (TEMPLATES_DIR (cfg e)) "modern_template.html" in
      let path := path_join out name in
      object_or_absent body ->
      request_field body "template_style" (PStr (TEMPLATE_STYLE (cfg e)))
      = PStr s ->
      request_field body "output_filename" (PStr "index.html") = PStr name ->
      read_fault e (db_conns w) = None ->
      db_rows w <> [] ->
      fs_fault e (OpMakedirs out) = None ->
      files w !! out = None ->
      files w !! modern_path = Some text ->
      fs_fault e (OpRead modern_path) = None ->
      (forall h kwargs, exists html, jinja_render e text h kwargs = Ret html) ->
      fs_fault e (OpWrite path) = None ->
      path ∉ ({[out]} ∪ dirs w : gset string) ->
      exists w',
        api_generate_html (Ret body) e w
        = (Ret (Response
                  (generated_body path (PStr s) (length (db_rows w)) name)
                  200), w')).
Proof.
  intros Hs. pose proof (unrecognized_not_random s Hs) as Hnr.
  split; [exact (proj1 Hs) |]. split; [| split; [| split]].
  - intros contacts output_filename e w p sel w' Hrun.
    apply generate_html_file_returned in Hrun as [-> _].
    unfold resolved_style. now rewrite Hnr.
  - intros e w lc items name text html out modern_path path
      Hlist Hmk Hout Hfile Hread Hjinja Hwrite Hpath run. subst run.
    rewrite (generate_html_file_run e w lc items (PStr s) s name text html);
      try assumption.
    + cbn [fst snd files set_files]. split; [reflexivity |].
      apply lookup_insert_eq.
    + unfold resolved_style. now rewrite Hnr.
    + now rewrite (template_filename_unrecognized s (proj1 Hs)).
    + now rewrite (template_filename_unrecognized s (proj1 Hs)).
  - intros body e w r w' Hbody Hstyle Hrun Hstatus.
    rewrite api_generate_html_run, api_generate_html_body_fields in Hrun
      by exact Hbody.
    rewrite Hstyle in Hrun.
    destruct (api_generate_html_resolved (PStr s) _ e w) as [[r1 | x] w1] eqn:Hres.
    2:{ injection Hrun as <- _. discriminate. }
    injection Hrun as -> ->.
    destruct (api_generate_html_resolved_200 _ _ _ _ _ _ Hres Hstatus)
      as (name & _ & Hresp & _).
    exists (path_join (OUTPUT_DIR (cfg e)) name), (length (db_rows w)), name.
    rewrite Hresp. unfold resolved_style. now rewrite Hnr.
  - intros body name text e w out modern_path path Hbody Hstyle Hname Hfault
      Hrows Hmk Hout Hfile Hread Hjinja Hwrite Hpath.
    destruct (api_generate_html_resolved_run (PStr s) name s text e w)
      as (w' & Hrun & _); try assumption.
    + unfold resolved_style. now rewrite Hnr.
    + now rewrite (template_filename_unrecognized s (proj1 Hs)).
    + now rewrite (template_filename_unrecognized s (proj1 Hs)).
    + exists w'.
      rewrite api_generate_html_run, api_generate_html_body_fields by exact Hbody.
      rewrite Hstyle, Hname. now rewrite Hrun.
Qed.

Lemma unrecognized_style_returned_verbatim_witness :
  let run :=
    generate_html_file (PRef 0) (PStr Sample.bogus) (PStr "index.html")
      Sample.env0 Sample.world1 in
  fst run = Ret ("static/generated/index.html", PStr Sample.bogus)
  /\ files (snd run) !! "static/generated/index.html"
     = Some "<html>modern</html>".
Proof.
  destruct (unrecognized_style_returned_verbatim Sample.bogus
              bogus_unrecognized) as (_ & _ & H & _).
  apply (H Sample.env0 Sample.world1 0%nat [PRef 1; PRef 2] "index.html"
           "modern" "<html>modern</html>").
  - exact sample_contact_list.
  - reflexivity.
  - reflexivity.
  - reflexivity.
  - reflexivity.
  - reflexivity.
  - reflexivity.
  - vm_compute. discriminate.
Defined.





(** ** [POST /api/validate] *)

Lemma row_dict_lookup r :
  row_dict r !! "id" = Some (PInt (row_id r))
  /\ row_dict r !! "first_name" = Some (row_first_name r)
  /\ row_dict r !! "last_name" = Some (row_last_name r)
  /\ row_dict r !! "address" = Some (row_address r)
  /\ row_dict r !! "city" = Some (row_city r)
  /\ row_dict r !! "state" = Some (row_state r)
  /\ row_dict r !! "zipcode" = Some (row_zipcode r).
Proof. repeat split; vm_compute; reflexivity. Qed.

Lemma config_value_truthy h o :
  py_truthy h (config_value o) = py_truthy ∅ (config_value o).
Proof. now destruct o. Qed.

(** With credentials configured, a documented answer gives its status,
    and the request is on the log. *)
Lemma validate_address_smarty_documented address city state zipcode e w :
  configured e ->
  let auth_id := config_value (SMARTY_AUTH_ID (cfg e)) in
  let auth_token := config_value (SMARTY_AUTH_TOKEN (cfg e)) in
  let request := smarty_request address city state zipcode auth_id auth_token in
  let answer := http_get e (length (http_log w)) request in
  documented_answer answer ->
  validate_address_smarty address city state zipcode auth_id auth_token e w
  = (Ret (documented_status answer),
     set_http_log (http_log w ++ [request]) w).
Proof.
  intros [Hid Htoken] auth_id auth_token request answer Hdoc.
  rewrite validate_with_credentials
    by (unfold auth_id, auth_token; now rewrite config_value_truthy).
  unfold try_except, bind at 1, requests_get.
  fold (smarty_request address city state zipcode auth_id auth_token).
  fold request. fold answer. unfold documented_status.
  destruct answer as [x | status body]; cbn [documented_answer] in Hdoc.
  - rewrite Hdoc. reflexivity.
  - cbn [fst]. destruct (Z.eqb_spec status 200) as [-> | Hne]; [| reflexivity].
    destruct (Hdoc eq_refl) as [items ->].
    destruct items as [| x items]; reflexivity.
Qed.

Lemma update_validation_status_run contact_id status e w :
  write_fault e (db_conns w) = None ->
  update_validation_status contact_id status e w
  = (Ret tt,
     set_db_rows (sql_update contact_id status (db_rows w))
       (set_db_conns (S (db_conns w)) w)).
Proof.
  intros Hfault. unfold write_fault in Hfault.
  unfold update_validation_status, get_db_connection. run_model.
  destruct (db_fault e (db_conns w)) as [[stage x] |] eqn:Efault;
    [discriminate |].
  run_model. rewrite ?Efault. run_model. rewrite ?Efault.
  unfold set_db_rows, set_db_open, set_db_conns. cbn. reflexivity.
Qed.

Lemma update_validation_status_fault contact_id status e w x :
  write_fault e (db_conns w) = Some x ->
  update_validation_status contact_id status e w
  = (Raise x, set_db_conns (S (db_conns w)) w).
Proof.
  intros Hfault. unfold write_fault in Hfault.
  unfold update_validation_status, get_db_connection. run_model.
  destruct (db_fault e (db_conns w)) as [[[| |] y] |] eqn:Efault;
    try discriminate; injection Hfault as ->;
    run_model; rewrite ?Efault; run_model; rewrite ?Efault.
  - now destruct (is_psycopg2_error x).
  - unfold set_db_open, set_db_conns. cbn. reflexivity.
  - unfold set_db_open, set_db_conns. cbn. reflexivity.
Qed.

Lemma py_getitem_run l key fields v e w :
  heap w !! l = Some (ODict fields) ->
  fields !! key = Some v ->
  py_getitem (PRef l) key e w = (Ret v, w).
Proof. intros Hl Hkey. unfold py_getitem. now rewrite Hl, Hkey. Qed.

Lemma py_setitem_run l key fields v e w :
  heap w !! l = Some (ODict fields) ->
  py_setitem (PRef l) key v e w
  = (Ret tt, set_heap (<[l := ODict (<[key := v]> fields)]> (heap w)) w).
Proof. intros Hl. unfold py_setitem. now rewrite Hl. Qed.

Lemma py_append_run l items v e w :
  heap w !! l = Some (OList items) ->
  py_append (PRef l) v e w
  = (Ret tt, set_heap (<[l := OList (items ++ [v])]> (heap w)) w).
Proof. intros Hl. unfold py_append. now rewrite Hl. Qed.



Lemma for_each_app {A} (xs ys : list A) (body : A -> M unit) e w :
  for_each (xs ++ ys) body e w
  = (for_each xs body >> for_each ys body) e w.
Proof.
  revert w. induction xs as [| x xs IH]; intros w; cbn [for_each app].
  - reflexivity.
  - unfold bind. destruct (body x e w) as [[[] | y] w1]; [| reflexivity].
    rewrite IH. reflexivity.
Qed.



Lemma Forall2_dicts_frame (h h' : gmap loc obj) locs rows :
  Forall2 (fun l r => h !! l = Some (ODict (row_dict r))) locs rows ->
  (forall l, l ∈ locs -> h' !! l = h !! l) ->
  Forall2 (fun l r => h' !! l = Some (ODict (row_dict r))) locs rows.
Proof.
  induction 1 as [| l r locs rows Hl _ IH]; intros Hsame; constructor.
  - rewrite Hsame; [exact Hl | now left].
  - apply IH. intros l' Hin. apply Hsame. now right.
Qed.


(** The view up to its loop: the contacts are fetched and the list of
    validated contacts is allocated. *)
Lemma api_validate_addresses_body_start e w :
  read_fault e (db_conns w) = None ->
  db_rows w <> [] ->
  exists locs lv w2,
    api_validate_addresses_body e w
    = (for_each (map PRef locs) (validate_contact (PRef lv)) >>
       let* count := py_len (PRef lv) in
       ret (Response
              (jsonify [("message", PStr "Address validation completed");
                        ("contacts", PRef lv);
                        ("count", PInt (Z.of_nat count))])
              200)) e w2
    /\ Forall2 (fun l r => heap w2 !! l = Some (ODict (row_dict r)))
               locs (db_rows w)
    /\ NoDup (lv :: locs)
    /\ heap w2 !! lv = Some (OList [])
    /\ db_rows w2 = db_rows w
    /\ http_log w2 = http_log w
    /\ db_conns w2 = S (db_conns w).
Proof.
  intros Hfault Hrows.
  destruct (fetch_contacts_run e w Hfault) as (lc & locs & w1 & Hrun & Hf).
  pose proof (fetched_length _ _ _ _ Hf) as Hlen.
  destruct (fetched_frame _ _ _ _ Hf) as (Hdb & _ & _ & _ & Hlog & Hconns & _).
  destruct Hf as (_ & Hlist & Hdicts & Hnodup & _ & _).
  set (lv := fresh (dom (heap w1))).
  assert (Hfresh : heap w1 !! lv = None).
  { apply not_elem_of_dom. apply is_fresh. }
  assert (Hlv_lc : lv <> lc) by congruence.
  assert (Hlv_locs : lv ∉ locs).
  { intros Hin. apply list_elem_of_lookup in Hin as [i Hi].
    destruct (Forall2_lookup_l _ _ _ _ _ Hdicts Hi) as (r & _ & Hr). congruence. }
  exists locs, lv, (set_heap (<[lv := OList []]> (heap w1)) w1).
  cbn [heap db_rows http_log db_conns set_heap].
  split.
  { unfold api_validate_addresses_body. unfold bind at 1. rewrite Hrun.
    unfold bind at 1, truthy, py_truthy. rewrite Hlist.
    destruct locs as [| l locs'].
    { destruct (db_rows w); [contradiction | discriminate]. }
    cbn [map negb]. unfold bind at 1, alloc. fold lv.
    unfold bind at 1, py_iter. cbn [heap set_heap].
    rewrite lookup_insert_ne by exact Hlv_lc. rewrite Hlist. reflexivity. }
  split.
  { apply (Forall2_dicts_frame (heap w1)); [exact Hdicts |].
    intros l Hin. rewrite lookup_insert_ne; [reflexivity |].
    intros <-. contradiction. }
  split.
  { constructor; [exact Hlv_locs |]. now apply NoDup_cons in Hnodup as [_ ?]. }
  split; [apply lookup_insert_eq |].
  repeat split; assumption.
Qed.

Lemma api_validate_addresses_run e w :
  api_validate_addresses e w
  = match api_validate_addresses_body e w with
    | (Ret r, w') => (Ret r, w')
    | (Raise x, w') =>
        (Ret (Response
                (jsonify [("error",
                           PStr (if is_psycopg2_error x
                                 then "Database connection failed"
                                 else "Internal server error"))])
                500), w')
    end.
Proof.
  unfold api_validate_addresses, handle_db_errors, try_except.
  destruct (api_validate_addresses_body e w) as [[r | x] w']; [reflexivity |].
  now destruct (is_psycopg2_error x).
Qed.




(** * Further properties *)

(** ** The contact store accessor *)

Lemma fetched_open w lc locs w' :
  fetched w lc locs w' -> db_open w' = db_open w.
Proof. intros Hf. now destruct (fetched_frame _ _ _ _ Hf) as (_ & _ & _ & _ & _ & _ & ?). Qed.

(** X1. [fetch_contacts] closes its connection on every path and only
    reads: whether it returns or raises, no connection stays open, one
    connection attempt is counted, and the table, the network log and the
    files are untouched.  It returns unless connecting or the query fails,
    and then the exception of the store propagates and the heap holds no
    partial result. *)
Theorem fetch_contacts_releases_connection e w :
  let run := fetch_contacts e w in
  db_open (snd run) = db_open w
  /\ db_conns (snd run) = S (db_conns w)
  /\ db_rows (snd run) = db_rows w
  /\ http_log (snd run) = http_log w
  /\ files (snd run) = files w
  /\ match read_fault e (db_conns w) with
     | None => exists lc, fst run = Ret (PRef lc)
     | Some x => fst run = Raise x /\ heap (snd run) = heap w
     end.
Proof.
  cbv zeta. destruct (read_fault e (db_conns w)) as [x |] eqn:Hfault.
  - rewrite (fetch_contacts_fault e w x Hfault). cbn. auto 10.
  - destruct (fetch_contacts_run e w Hfault) as (lc & locs & w' & -> & Hf).
    destruct (fetched_frame _ _ _ _ Hf) as (? & ? & _ & _ & ? & ? & ?).
    cbn [fst snd]. repeat split; try assumption. now exists lc.
Qed.

Lemma row_dict_holds_row r : holds_row (row_dict r) r.
Proof. unfold holds_row. repeat split; vm_compute; reflexivity. Qed.

Lemma row_dict_keys r key :
  is_Some (row_dict r !! key) <-> key ∈ columns.
Proof.
  unfold row_dict. rewrite <- elem_of_dom, dom_list_to_map_L, elem_of_list_to_set.
  now rewrite fst_zip by (cbn; lia).
Qed.

(** X2. What [fetch_contacts] returns is the table: a new list with one
    new dict per row, in the order of the rows, the dicts pairwise
    distinct objects; the dict of a row has exactly the nine selected
    columns as keys and the row's values under them. *)
Theorem fetch_contacts_rows_in_order e w :
  read_fault e (db_conns w) = None ->
  exists lc locs w',
    fetch_contacts e w = (Ret (PRef lc), w')
    /\ heap w !! lc = None
    /\ heap w' !! lc = Some (OList (map PRef locs))
    /\ length locs = length (db_rows w)
    /\ NoDup locs
    /\ (forall i r, db_rows w !! i = Some r ->
        exists l fields,
          locs !! i = Some l
          /\ heap w !! l = None
          /\ heap w' !! l = Some (ODict fields)
          /\ holds_row fields r
          /\ (forall key, is_Some (fields !! key) <-> key ∈ columns)).
Proof.
  intros Hfault.
  destruct (fetch_contacts_run e w Hfault) as (lc & locs & w' & Hrun & Hf).
  pose proof (fetched_length _ _ _ _ Hf) as Hlen.
  destruct Hf as (_ & Hlist & Hdicts & Hnodup & Hnew & _).
  exists lc, locs, w'. split; [exact Hrun |].
  split; [apply Hnew; now left |].
  split; [exact Hlist |]. split; [exact Hlen |].
  split; [now apply NoDup_cons in Hnodup as [_ ?] |].
  intros i r Hr.
  destruct (Forall2_lookup_r _ _ _ _ _ Hdicts Hr) as (l & Hl & Hlr).
  exists l, (row_dict r). split; [exact Hl |].
  split.
  { apply Hnew. right. eapply list_elem_of_lookup_2. exact Hl. }
  split; [exact Hlr |]. split; [apply row_dict_holds_row |].
  apply row_dict_keys.
Qed.

Lemma fetch_contacts_rows_in_order_witness :
  exists lc (locs : list loc) w',
    fetch_contacts Sample.env0 (Sample.world0 [Sample.ada; Sample.bob])
    = (Ret (PRef lc), w')
    /\ length locs = 2%nat.
Proof.
  destruct (fetch_contacts_rows_in_order Sample.env0
              (Sample.world0 [Sample.ada; Sample.bob]) eq_refl)
    as (lc & locs & w' & Hrun & _ & _ & Hlen & _).
  now exists lc, locs, w'.
Defined.

Lemma sql_update_lookup contact_id status rows i :
  sql_update contact_id status rows !! i
  = (fun r => if id_matches contact_id r then with_valid status r else r)
      <$> rows !! i.
Proof. unfold sql_update. apply list_lookup_fmap. Qed.

(** X3. [update_validation_status] closes its connection on every path
    and touches nothing but the table.  When connecting, the statement or
    the commit fails, the exception propagates and the table is as it was.
    Otherwise the table keeps its rows and their order, a row whose id is
    not the given one is unchanged, and a row with that id changes in the
    column [valid] only, to the given status. *)
Theorem update_validation_status_frame contact_id status e w :
  let run := update_validation_status contact_id status e w in
  db_open (snd run) = db_open w
  /\ db_conns (snd run) = S (db_conns w)
  /\ http_log (snd run) = http_log w
  /\ files (snd run) = files w
  /\ heap (snd run) = heap w
  /\ match write_fault e (db_conns w) with
     | Some x => fst run = Raise x /\ db_rows (snd run) = db_rows w
     | None =>
         fst run = Ret tt
         /\ length (db_rows (snd run)) = length (db_rows w)
         /\ forall i r, db_rows w !! i = Some r ->
            exists r',
              db_rows (snd run) !! i = Some r'
              /\ same_but_valid r r'
              /\ row_valid r'
                 = (if id_matches contact_id r then status else row_valid r)
     end.
Proof.
  cbv zeta. destruct (write_fault e (db_conns w)) as [x |] eqn:Hfault.
  - rewrite (update_validation_status_fault _ _ e w x Hfault). cbn. auto 10.
  - rewrite (update_validation_status_run _ _ e w Hfault).
    cbn [fst snd db_open db_conns http_log files heap db_rows set_db_rows
         set_db_conns].
    repeat split.
    + unfold sql_update. apply length_map.
    + intros i r Hr. rewrite sql_update_lookup, Hr. cbn [fmap option_fmap option_map].
      eexists. split; [reflexivity |].
      destruct (id_matches contact_id r); split; try reflexivity;
        unfold same_but_valid; now destruct r.
Qed.

Lemma update_validation_status_frame_witness :
  exists r',
    db_rows (snd (update_validation_status (PInt 1) (PStr "Valid") Sample.env0
                    (Sample.world0 [Sample.ada; Sample.bob]))) !! 0%nat
    = Some r'
    /\ same_but_valid Sample.ada r'
    /\ row_valid r' = PStr "Valid".
Proof.
  pose proof (update_validation_status_frame (PInt 1) (PStr "Valid") Sample.env0
                (Sample.world0 [Sample.ada; Sample.bob])) as H.
  cbv zeta in H. destruct H as (_ & _ & _ & _ & _ & H).
  assert (Hw : write_fault Sample.env0
                 (db_conns (Sample.world0 [Sample.ada; Sample.bob])) = None)
    by reflexivity.
  rewrite Hw in H. destruct H as (_ & _ & H).
  destruct (H 0%nat Sample.ada eq_refl) as (r' & Hr' & Hsame & Hvalid).
  exists r'. split; [exact Hr' |]. split; [exact Hsame | exact Hvalid].
Defined.

(** X4. Updates compose as assignments do: of two successful updates for
    the same id the later status is the one stored, as if the earlier had
    not been made; and writing the same status twice is writing it once. *)
Theorem update_validation_status_last_wins contact_id s1 s2 e w :
  write_fault e (db_conns w) = None ->
  write_fault e (S (db_conns w)) = None ->
  let twice :=
    (update_validation_status contact_id s1 >>
     update_validation_status contact_id s2) e w in
  fst twice = Ret tt
  /\ db_rows (snd twice)
     = db_rows (snd (update_validation_status contact_id s2 e w))
  /\ (s1 = s2 ->
      db_rows (snd twice)
      = db_rows (snd (update_validation_status contact_id s1 e w))).
Proof.
  intros H1 H2. cbv zeta.
  rewrite (bind_ret_run _ _ _ _ _ _
             (update_validation_status_run contact_id s1 e w H1)).
  rewrite (update_validation_status_run contact_id s2 e
             (set_db_rows (sql_update contact_id s1 (db_rows w))
                (set_db_conns (S (db_conns w)) w)) H2).
  rewrite !(update_validation_status_run _ _ e w H1).
  cbn [fst snd db_rows set_db_rows set_db_conns].
  assert (Hlast : sql_update contact_id s2 (sql_update contact_id s1 (db_rows w))
                  = sql_update contact_id s2 (db_rows w)).
  { unfold sql_update. rewrite <- list_fmap_compose. apply list_fmap_ext.
    intros i r _. cbn. destruct (id_matches contact_id r) eqn:Hm.
    - assert (id_matches contact_id (with_valid s1 r) = true) as ->
        by (destruct contact_id; exact Hm).
      reflexivity.
    - now rewrite Hm. }
  split; [reflexivity |]. split; [exact Hlast |].
  intros <-. exact Hlast.
Qed.

Lemma update_validation_status_last_wins_witness :
  db_rows
    (snd ((update_validation_status (PInt 1) (PStr "API Error") >>
           update_validation_status (PInt 1) (PBool false))
            Sample.env0 (Sample.world0 [Sample.ada; Sample.bob])))
  = db_rows
      (snd (update_validation_status (PInt 1) (PBool false)
              Sample.env0 (Sample.world0 [Sample.ada; Sample.bob]))).
Proof.
  apply (update_validation_status_last_wins (PInt 1) (PStr "API Error")
           (PBool false) Sample.env0
           (Sample.world0 [Sample.ada; Sample.bob]) eq_refl eq_refl).
Defined.

(** ** Listing and looking up contacts *)

Lemma handle_db_errors_run f e w :
  handle_db_errors f e w
  = match f e w with
    | (Ret r, w') => (Ret r, w')
    | (Raise x, w') =>
        (Ret (Response
                (jsonify [("error",
                           PStr (if is_psycopg2_error x
                                 then "Database connection failed"
                                 else "Internal server error"))])
                500), w')
    end.
Proof.
  unfold handle_db_errors, try_except.
  destruct (f e w) as [[r | x] w']; [reflexivity |].
  now destruct (is_psycopg2_error x).
Qed.

Lemma row_dict_nonempty r : row_dict r <> ∅.
Proof.
  intros Hempty. pose proof (row_dict_holds_row r) as [Hid _].
  rewrite Hempty in Hid. now rewrite lookup_empty in Hid.
Qed.

Lemma truthy_contact l r e w :
  heap w !! l = Some (ODict (row_dict r)) ->
  truthy (PRef l) e w = (Ret true, w).
Proof.
  intros Hl. unfold truthy, py_truthy. rewrite Hl.
  rewrite bool_decide_eq_false_2 by apply row_dict_nonempty. reflexivity.
Qed.

(** The search visits the fetched contacts in row order and stops at the
    first row with the id. *)
Lemma first_with_id_run contact_id e w locs rows :
  Forall2 (fun l r => heap w !! l = Some (ODict (row_dict r))) locs rows ->
  first_with_id (map PRef locs) contact_id e w
  = (Ret (match list_find (fun r => row_id r = contact_id) rows with
          | Some (i, _) =>
              match locs !! i with Some l => PRef l | None => PNone end
          | None => PNone
          end), w).
Proof.
  induction 1 as [| l r locs rows Hl _ IH]; [reflexivity |].
  cbn [map first_with_id list_find].
  destruct (row_dict_holds_row r) as [Hid _].
  rewrite (bind_ret_run _ _ _ _ _ _ (py_getitem_run l "id" _ _ e w Hl Hid)).
  cbn [py_eq_int]. destruct (decide (row_id r = contact_id)) as [Heq | Hne].
  - rewrite (proj2 (Z.eqb_eq _ _) Heq). reflexivity.
  - rewrite (proj2 (Z.eqb_neq _ _) Hne). rewrite IH.
    destruct (list_find _ rows) as [[i r'] |]; reflexivity.
Qed.

Lemma find_contact_run contact_id e w lc locs :
  heap w !! lc = Some (OList (map PRef locs)) ->
  Forall2 (fun l r => heap w !! l = Some (ODict (row_dict r))) locs (db_rows w) ->
  find_contact (PRef lc) contact_id e w
  = (Ret (match list_find (fun r => row_id r = contact_id) (db_rows w) with
          | Some (i, _) =>
              match locs !! i with Some l => PRef l | None => PNone end
          | None => PNone
          end), w).
Proof.
  intros Hlc Hdicts. unfold find_contact, bind at 1, py_iter. rewrite Hlc.
  now apply first_with_id_run.
Qed.

(** X5. [GET /api/contacts] answers 200 with all contacts: the count is
    the number of rows of the table and the list holds as many records.
    When the store fails it answers 500, with the message "Database
    connection failed" for an error of the database driver.  Either way
    the table is untouched and no connection stays open. *)
Theorem api_contacts_lists_all now_iso e w :
  let run := api_contacts now_iso e w in
  db_open (snd run) = db_open w
  /\ db_rows (snd run) = db_rows w
  /\ match read_fault e (db_conns w) with
     | None =>
         exists lc items,
           fst run
           = Ret (Response
                    (jsonify [("contacts", PRef lc);
                              ("count", PInt (Z.of_nat (length (db_rows w))));
                              ("timestamp", PStr now_iso)])
                    200)
           /\ heap (snd run) !! lc = Some (OList items)
           /\ length items = length (db_rows w)
     | Some x =>
         fst run
         = Ret (Response
                  (jsonify [("error",
                             PStr (if is_psycopg2_error x
                                   then "Database connection failed"
                                   else "Internal server error"))])
                  500)
     end.
Proof.
  cbv zeta. unfold api_contacts. rewrite handle_db_errors_run.
  unfold api_contacts_body, bind.
  destruct (read_fault e (db_conns w)) as [x |] eqn:Hfault.
  - rewrite (fetch_contacts_fault e w x Hfault).
    cbn [fst snd db_open db_rows set_db_conns]. repeat split.
  - destruct (fetch_contacts_run e w Hfault) as (lc & locs & w' & -> & Hf).
    pose proof (fetched_length _ _ _ _ Hf) as Hlen.
    pose proof (fetched_open _ _ _ _ Hf) as Hopen.
    destruct (fetched_frame _ _ _ _ Hf) as (Hdb & _).
    destruct Hf as (_ & Hlist & _).
    unfold py_len. rewrite Hlist. cbn [ret fst snd].
    split; [exact Hopen |]. split; [exact Hdb |].
    exists lc, (map PRef locs). rewrite length_map, Hlen. auto.
Qed.

(** X6. [GET /api/contacts/<id>] answers 404 "Contact not found" when no
    row has the id, and otherwise 200 with the first row, in store order,
    that has it.  It only reads: the table and the network log are
    untouched. *)
Theorem api_contact_detail_first_match contact_id e w :
  read_fault e (db_conns w) = None ->
  let run := api_contact_detail contact_id e w in
  db_rows (snd run) = db_rows w
  /\ http_log (snd run) = http_log w
  /\ db_open (snd run) = db_open w
  /\ match list_find (fun r => row_id r = contact_id) (db_rows w) with
     | None =>
         fst run
         = Ret (Response (jsonify [("error", PStr "Contact not found")]) 404)
     | Some (i, r) =>
         exists l,
           fst run = Ret (Response (PRef l) 200)
           /\ heap (snd run) !! l = Some (ODict (row_dict r))
     end.
Proof.
  intros Hfault. cbv zeta. unfold api_contact_detail.
  rewrite handle_db_errors_run. unfold api_contact_detail_body.
  destruct (fetch_contacts_run e w Hfault) as (lc & locs & w' & Hrun & Hf).
  pose proof (fetched_open _ _ _ _ Hf) as Hopen.
  destruct (fetched_frame _ _ _ _ Hf) as (Hdb & _ & _ & _ & Hlog & _).
  destruct Hf as (_ & Hlist & Hdicts & _).
  rewrite (bind_ret_run _ _ _ _ _ _ Hrun).
  rewrite <- Hdb in Hdicts.
  rewrite (bind_ret_run _ _ _ _ _ _
             (find_contact_run contact_id e w' lc locs Hlist Hdicts)).
  rewrite Hdb.
  destruct (list_find _ (db_rows w)) as [[i r] |] eqn:Hfind.
  - apply list_find_Some in Hfind as (Hr & _ & _).
    rewrite Hdb in Hdicts.
    destruct (Forall2_lookup_r _ _ _ _ _ Hdicts Hr) as (l & Hl & Hlr).
    rewrite Hl. rewrite (bind_ret_run _ _ _ _ _ _ (truthy_contact l r e w' Hlr)).
    cbn [negb ret fst snd]. repeat split; try assumption. now exists l.
  - unfold bind, truthy, py_truthy. cbn. auto.
Qed.

Lemma api_contact_detail_first_match_witness :
  exists l,
    fst (api_contact_detail 2 Sample.env0
           (Sample.world0 [Sample.ada; Sample.bob]))
    = Ret (Response (PRef l) 200).
Proof.
  destruct (api_contact_detail_first_match 2 Sample.env0
              (Sample.world0 [Sample.ada; Sample.bob]) eq_refl)
    as (_ & _ & _ & H).
  destruct H as (l & Hrun & _). now exists l.
Defined.

(** ** Validating addresses *)

Lemma set_http_log_same w : set_http_log (http_log w) w = w.
Proof. now destruct w. Qed.

Lemma validate_unconfigured_run address city state zipcode e w :
  unconfigured e ->
  validate_address_smarty address city state zipcode
    (config_value (SMARTY_AUTH_ID (cfg e)))
    (config_value (SMARTY_AUTH_TOKEN (cfg e))) e w
  = (Ret (PStr "Not Validated"), set_http_log (http_log w) w).
Proof.
  intros Hun. rewrite set_http_log_same.
  apply validate_skips_without_credentials.
  rewrite (config_value_truthy (heap w) (SMARTY_AUTH_ID (cfg e))).
  rewrite (config_value_truthy (heap w) (SMARTY_AUTH_TOKEN (cfg e))).
  exact Hun.
Qed.

(** One turn of the loop of [api_validate_addresses], for any status the
    validator returns. *)
Lemma validate_contact_step e w lv l r done st lg :
  heap w !! l = Some (ODict (row_dict r)) ->
  heap w !! lv = Some (OList done) ->
  l <> lv ->
  validate_address_smarty (row_address r) (row_city r) (row_state r)
    (row_zipcode r) (config_value (SMARTY_AUTH_ID (cfg e)))
    (config_value (SMARTY_AUTH_TOKEN (cfg e))) e w
  = (Ret st, set_http_log lg w) ->
  write_fault e (db_conns w) = None ->
  validate_contact (PRef lv) (PRef l) e w
  = (Ret tt,
     set_heap (<[lv := OList (done ++ [PRef l])]>
                 (<[l := ODict (<["valid" := st]> (row_dict r))]> (heap w)))
       (set_db_rows (sql_update (PInt (row_id r)) st (db_rows w))
          (set_db_conns (S (db_conns w)) (set_http_log lg w)))).
Proof.
  intros Hl Hlv Hne Hval Hfault.
  destruct (row_dict_lookup r) as (Hid & Hfirst & Hlast & Haddr & Hcity & Hstate & Hzip).
  unfold validate_contact. unfold bind at 1, ask.
  rewrite (bind_ret_run _ _ _ _ _ _ (py_getitem_run l "address" _ _ e w Hl Haddr)).
  rewrite (bind_ret_run _ _ _ _ _ _ (py_getitem_run l "city" _ _ e w Hl Hcity)).
  rewrite (bind_ret_run _ _ _ _ _ _ (py_getitem_run l "state" _ _ e w Hl Hstate)).
  rewrite (bind_ret_run _ _ _ _ _ _ (py_getitem_run l "zipcode" _ _ e w Hl Hzip)).
  rewrite (bind_ret_run _ _ _ _ _ _ Hval).
  set (w1 := set_http_log lg w).
  rewrite (bind_ret_run _ _ _ _ _ _ (py_getitem_run l "id" _ _ e w1 Hl Hid)).
  rewrite (bind_ret_run _ _ _ _ _ _
             (update_validation_status_run (PInt (row_id r)) st e w1 Hfault)).
  set (w2 := set_db_rows _ _).
  rewrite (bind_ret_run _ _ _ _ _ _ (py_setitem_run l "valid" _ st e w2 Hl)).
  set (w3 := set_heap _ w2).
  assert (Hlv3 : heap w3 !! lv = Some (OList done)).
  { unfold w3. cbn [heap set_heap]. now rewrite lookup_insert_ne. }
  rewrite (bind_ret_run _ _ _ _ _ _ (py_append_run lv done (PRef l) e w3 Hlv3)).
  set (w4 := set_heap _ w3).
  assert (Hl4 : heap w4 !! l
                = Some (ODict (<["valid" := st]> (row_dict r)))).
  { unfold w4, w3. cbn [heap set_heap].
    rewrite lookup_insert_ne by congruence. apply lookup_insert_eq. }
  rewrite (bind_ret_run _ _ _ _ _ _
             (py_getitem_run l "first_name" _ (row_first_name r) e w4 Hl4
                ltac:(now rewrite lookup_insert_ne))).
  rewrite (bind_ret_run _ _ _ _ _ _
             (py_getitem_run l "last_name" _ (row_last_name r) e w4 Hl4
                ltac:(now rewrite lookup_insert_ne))).
  reflexivity.
Qed.

(** The loop without credentials: no request, every contact stored as
    "Not Validated". *)
Lemma validate_loop_unconfigured e rows : forall locs w lv done,
  unconfigured e ->
  Forall2 (fun l r => heap w !! l = Some (ODict (row_dict r))) locs rows ->
  NoDup (lv :: locs) ->
  heap w !! lv = Some (OList done) ->
  (forall i, (i < length rows)%nat -> write_fault e (db_conns w + i) = None) ->
  exists w',
    for_each (map PRef locs) (validate_contact (PRef lv)) e w = (Ret tt, w')
    /\ db_rows w'
       = foldl (fun t r => sql_update (PInt (row_id r)) (PStr "Not Validated") t)
               (db_rows w) rows
    /\ http_log w' = http_log w
    /\ db_open w' = db_open w
    /\ files w' = files w
    /\ heap w' !! lv = Some (OList (done ++ map PRef locs)).
Proof.
  induction rows as [| r rows IH]; intros locs w lv done Hun Hdicts Hnodup
    Hlv Hfault.
  - apply Forall2_nil_inv_r in Hdicts as ->. exists w. cbn.
    rewrite app_nil_r. repeat split; auto.
  - apply Forall2_cons_inv_r in Hdicts as (l & locs' & Hl & Hdicts & ->).
    apply NoDup_cons in Hnodup as [Hlv_notin Hnodup].
    apply NoDup_cons in Hnodup as [Hl_notin Hnodup].
    assert (Hne : l <> lv).
    { intros ->. apply Hlv_notin. now left. }
    assert (Hfault0 : write_fault e (db_conns w) = None).
    { specialize (Hfault 0%nat). rewrite Nat.add_0_r in Hfault.
      apply Hfault. cbn. lia. }
    pose proof (validate_contact_step e w lv l r done _ _ Hl Hlv Hne
                  (validate_unconfigured_run _ _ _ _ e w Hun) Hfault0) as Hstep.
    rewrite set_http_log_same in Hstep.
    set (w1 := set_heap _ _) in Hstep.
    destruct (IH locs' w1 lv (done ++ [PRef l])%list Hun)
      as (w' & Hrun & Hrows & Hlog & Hopen & Hfiles & Hlist).
    + apply (Forall2_dicts_frame (heap w)); [exact Hdicts |].
      intros l' Hin'. unfold w1. cbn [heap set_heap].
      rewrite lookup_insert_ne.
      * rewrite lookup_insert_ne; [reflexivity |]. intros <-. contradiction.
      * intros <-. apply Hlv_notin. now right.
    + constructor; [| exact Hnodup]. intros Hin. apply Hlv_notin. now right.
    + unfold w1. cbn [heap set_heap]. apply lookup_insert_eq.
    + intros i Hi. unfold w1. cbn [db_conns set_heap set_db_rows set_db_conns].
      replace (S (db_conns w) + i)%nat with (db_conns w + S i)%nat by lia.
      apply Hfault. cbn [length]. lia.
    + exists w'. unfold w1 in Hrows, Hlog, Hopen, Hfiles.
      cbn [heap db_rows http_log db_open files set_heap set_db_rows
           set_db_conns] in Hrows, Hlog, Hopen, Hfiles.
      split.
      { cbn [map for_each]. now rewrite (bind_ret_run _ _ _ _ _ _ Hstep). }
      split; [exact Hrows |]. split; [exact Hlog |]. split; [exact Hopen |].
      split; [exact Hfiles |].
      rewrite Hlist. cbn [map]. now rewrite <- app_assoc.
Qed.

Lemma with_valid_idem st r : with_valid st (with_valid st r) = with_valid st r.
Proof. reflexivity. Qed.

(** Updating once per row, each under its own id, reaches every row. *)
Lemma foldl_sql_update_all st rows : forall table,
  foldl (fun t r => sql_update (PInt (row_id r)) st t) table rows
  = map (fun row =>
           if bool_decide (row_id row ∈ map row_id rows)
           then with_valid st row else row) table.
Proof.
  induction rows as [| r rows IH]; intros table; cbn [foldl map].
  - rewrite <- (map_id table) at 1. apply map_ext. intros row.
    rewrite bool_decide_eq_false_2; [reflexivity | apply not_elem_of_nil].
  - rewrite IH. unfold sql_update. rewrite map_map. apply map_ext. intros row.
    cbn [id_matches]. destruct (Z.eqb_spec (row_id r) (row_id row)) as [Heq | Hne].
    + rewrite (bool_decide_eq_true_2 (row_id row ∈ row_id r :: map row_id rows))
        by (rewrite Heq; now left).
      cbn [row_id with_valid]. now destruct (bool_decide _).
    + destruct (bool_decide (row_id row ∈ map row_id rows)) eqn:Hin.
      * apply bool_decide_eq_true_1 in Hin.
        rewrite bool_decide_eq_true_2 by now right. reflexivity.
      * apply bool_decide_eq_false_1 in Hin.
        rewrite bool_decide_eq_false_2; [reflexivity |].
        intros Hin'. apply elem_of_cons in Hin' as [Heq | Hin']; congruence.
Qed.

Lemma foldl_sql_update_self st rows :
  foldl (fun t r => sql_update (PInt (row_id r)) st t) rows rows
  = map (with_valid st) rows.
Proof.
  rewrite foldl_sql_update_all. apply map_ext_in. intros row Hin.
  rewrite bool_decide_eq_true_2; [reflexivity |].
  apply list_elem_of_In. now apply in_map.
Qed.

(** X7. [POST /api/validate] on an empty table answers 404 "No contacts
    found", and when the table cannot be read it answers 500; in both
    cases no request is sent to the validator, the table is untouched and
    no connection stays open. *)
Theorem validate_all_nothing_to_validate e w :
  let run := api_validate_addresses e w in
  match read_fault e (db_conns w) with
  | Some x =>
      fst run
      = Ret (Response
               (jsonify [("error",
                          PStr (if is_psycopg2_error x
                                then "Database connection failed"
                                else "Internal server error"))])
               500)
      /\ http_log (snd run) = http_log w
      /\ db_rows (snd run) = db_rows w
      /\ db_open (snd run) = db_open w
  | None =>
      db_rows w = [] ->
      fst run
      = Ret (Response (jsonify [("error", PStr "No contacts found")]) 404)
      /\ http_log (snd run) = http_log w
      /\ db_rows (snd run) = db_rows w
      /\ db_open (snd run) = db_open w
  end.
Proof.
  cbv zeta. rewrite api_validate_addresses_run.
  unfold api_validate_addresses_body, bind.
  destruct (read_fault e (db_conns w)) as [x |] eqn:Hfault.
  - rewrite (fetch_contacts_fault e w x Hfault). cbn. auto.
  - intros Hrows.
    destruct (fetch_contacts_run e w Hfault) as (lc & locs & w' & -> & Hf).
    pose proof (fetched_length _ _ _ _ Hf) as Hlen. rewrite Hrows in Hlen.
    destruct locs; [| discriminate].
    pose proof (fetched_open _ _ _ _ Hf) as Hopen.
    destruct (fetched_frame _ _ _ _ Hf) as (Hdb & _ & _ & _ & Hlog & _).
    destruct Hf as (_ & Hlist & _).
    unfold truthy, py_truthy. rewrite Hlist. cbn [map negb ret fst snd].
    auto.
Qed.

Lemma validate_all_nothing_to_validate_witness :
  fst (api_validate_addresses Sample.env0 (Sample.world0 []))
  = Ret (Response (jsonify [("error", PStr "No contacts found")]) 404).
Proof.
  pose proof (validate_all_nothing_to_validate Sample.env0 (Sample.world0 []))
    as H.
  cbv zeta in H. change (read_fault Sample.env0 (db_conns (Sample.world0 [])))
    with (@None exn) in H.
  now destruct (H eq_refl) as [-> _].
Defined.

(** X8. Without credentials, [POST /api/validate] still walks the whole
    table: it sends no request, answers 200, and overwrites the stored
    status of every row with "Not Validated", whatever it was before. *)
Theorem validate_all_without_credentials e w :
  unconfigured e ->
  read_fault e (db_conns w) = None ->
  db_rows w <> [] ->
  (forall i, (i < length (db_rows w))%nat ->
     write_fault e (S (db_conns w) + i) = None) ->
  exists r w',
    api_validate_addresses e w = (Ret r, w')
    /\ resp_status r = 200%Z
    /\ http_log w' = http_log w
    /\ db_rows w' = map (with_valid (PStr "Not Validated")) (db_rows w).
Proof.
  intros Hun Hread Hrows Hwrite.
  destruct (api_validate_addresses_body_start e w Hread Hrows)
    as (locs & lv & w2 & Hbody & Hdicts & Hnodup & Hlv & Hdb & Hlog & Hconns).
  destruct (validate_loop_unconfigured e (db_rows w) locs w2 lv [] Hun Hdicts
              Hnodup Hlv)
    as (w' & Hrun & Hrows' & Hlog' & Hopen' & _ & Hlist).
  { intros i Hi. rewrite Hconns. now apply Hwrite. }
  eexists _, w'. rewrite api_validate_addresses_run, Hbody.
  rewrite (bind_ret_run _ _ _ _ _ _ Hrun).
  unfold bind, py_len. rewrite Hlist. unfold ret.
  split; [reflexivity |]. split; [reflexivity |].
  split; [now rewrite Hlog' |].
  rewrite Hrows', Hdb. apply foldl_sql_update_self.
Qed.

Lemma validate_all_without_credentials_witness :
  exists r w',
    api_validate_addresses Sample2.env_no_credentials
      (Sample.world0 [Sample.ada; Sample.cyd]) = (Ret r, w')
    /\ resp_status r = 200%Z
    /\ http_log w' = []
    /\ map row_valid (db_rows w')
       = [PStr "Not Validated"; PStr "Not Validated"].
Proof.
  destruct (validate_all_without_credentials Sample2.env_no_credentials
              (Sample.world0 [Sample.ada; Sample.cyd]))
    as (r & w' & Hrun & Hstatus & Hlog & Hrows).
  - left. reflexivity.
  - reflexivity.
  - discriminate.
  - intros i _. reflexivity.
  - exists r, w'. rewrite Hrows. auto.
Defined.

(** The single-contact view, for any status the validator returns for the
    matching row. *)
Lemma api_validate_single_address_run contact_id e w i r st lgf :
  read_fault e (db_conns w) = None ->
  list_find (fun r => row_id r = contact_id) (db_rows w) = Some (i, r) ->
  (forall w1, http_log w1 = http_log w ->
     validate_address_smarty (row_address r) (row_city r) (row_state r)
       (row_zipcode r) (config_value (SMARTY_AUTH_ID (cfg e)))
       (config_value (SMARTY_AUTH_TOKEN (cfg e))) e w1
     = (Ret st, set_http_log (lgf (http_log w1)) w1)) ->
  let run := api_validate_single_address contact_id e w in
  http_log (snd run) = lgf (http_log w)
  /\ db_open (snd run) = db_open w
  /\ match write_fault e (S (db_conns w)) with
     | None =>
         exists l,
           fst run
           = Ret (Response
                    (jsonify [("message", PStr "Address validation completed");
                              ("contact", PRef l)])
                    200)
           /\ db_rows (snd run) = sql_update (PInt contact_id) st (db_rows w)
           /\ heap (snd run) !! l
              = Some (ODict (<["valid" := st]> (row_dict r)))
     | Some x =>
         fst run
         = Ret (Response
                  (jsonify [("error",
                             PStr (if is_psycopg2_error x
                                   then "Database connection failed"
                                   else "Internal server error"))])
                  500)
         /\ db_rows (snd run) = db_rows w
     end.
Proof.
  intros Hfault Hfind Hval run.
  assert (Hrun_def : api_validate_single_address contact_id e w = run)
    by reflexivity.
  clearbody run. revert Hrun_def. unfold api_validate_single_address.
  rewrite handle_db_errors_run. unfold api_validate_single_address_body.
  unfold bind at 1, ask.
  destruct (fetch_contacts_run e w Hfault) as (lc & locs & w1 & Hrun & Hf).
  pose proof (fetched_open _ _ _ _ Hf) as Hopen.
  destruct (fetched_frame _ _ _ _ Hf) as (Hdb & _ & _ & _ & Hlog & Hconns & _).
  destruct Hf as (_ & Hlist & Hdicts & _).
  rewrite (bind_ret_run _ _ _ _ _ _ Hrun).
  rewrite <- Hdb in Hdicts.
  rewrite (bind_ret_run _ _ _ _ _ _
             (find_contact_run contact_id e w1 lc locs Hlist Hdicts)).
  rewrite Hdb, Hfind.
  apply list_find_Some in Hfind as (Hr & _ & _).
  rewrite Hdb in Hdicts.
  destruct (Forall2_lookup_r _ _ _ _ _ Hdicts Hr) as (l & Hl & Hlr).
  rewrite Hl. rewrite (bind_ret_run _ _ _ _ _ _ (truthy_contact l r e w1 Hlr)).
  cbn [negb].
  destruct (row_dict_lookup r) as (Hid & Hfirst & Hlast & Haddr & Hcity & Hstate & Hzip).
  rewrite (bind_ret_run _ _ _ _ _ _ (py_getitem_run l "address" _ _ e w1 Hlr Haddr)).
  rewrite (bind_ret_run _ _ _ _ _ _ (py_getitem_run l "city" _ _ e w1 Hlr Hcity)).
  rewrite (bind_ret_run _ _ _ _ _ _ (py_getitem_run l "state" _ _ e w1 Hlr Hstate)).
  rewrite (bind_ret_run _ _ _ _ _ _ (py_getitem_run l "zipcode" _ _ e w1 Hlr Hzip)).
  rewrite (bind_ret_run _ _ _ _ _ _ (Hval w1 Hlog)).
  rewrite Hlog.
  set (w2 := set_http_log (lgf (http_log w)) w1).
  assert (Hconns2 : db_conns w2 = S (db_conns w)) by exact Hconns.
  destruct (write_fault e (S (db_conns w))) as [x |] eqn:Hwrite.
  - rewrite <- Hconns2 in Hwrite.
    rewrite (bind_raise_run _ _ _ _ _ _
               (update_validation_status_fault (PInt contact_id) st e w2 x Hwrite)).
    intros <-. unfold w2.
    cbn [fst snd http_log db_open db_rows set_db_conns set_http_log].
    repeat split; assumption.
  - rewrite <- Hconns2 in Hwrite.
    rewrite (bind_ret_run _ _ _ _ _ _
               (update_validation_status_run (PInt contact_id) st e w2 Hwrite)).
    set (w3 := set_db_rows _ _).
    rewrite (bind_ret_run _ _ _ _ _ _ (py_setitem_run l "valid" _ st e w3 Hlr)).
    set (w4 := set_heap _ w3).
    assert (Hl4 : heap w4 !! l = Some (ODict (<["valid" := st]> (row_dict r)))).
    { unfold w4. cbn [heap set_heap]. apply lookup_insert_eq. }
    rewrite (bind_ret_run _ _ _ _ _ _
               (py_getitem_run l "first_name" _ (row_first_name r) e w4 Hl4
                  ltac:(now rewrite lookup_insert_ne))).
    rewrite (bind_ret_run _ _ _ _ _ _
               (py_getitem_run l "last_name" _ (row_last_name r) e w4 Hl4
                  ltac:(now rewrite lookup_insert_ne))).
    intros <-.
    cbn [ret fst snd]. split; [reflexivity |]. split; [exact Hopen |].
    exists l. split; [reflexivity |]. split; [| exact Hl4].
    unfold w4, w3, w2. cbn [db_rows set_heap set_db_rows set_db_conns set_http_log].
    now rewrite Hdb.
Qed.

(** X9. [POST /api/validate/<id>] for an id no row has answers 404
    "Contact not found" without sending a request to the validator or
    writing to the store. *)
Theorem validate_single_unknown_id contact_id e w :
  read_fault e (db_conns w) = None ->
  list_find (fun r => row_id r = contact_id) (db_rows w) = None ->
  let run := api_validate_single_address contact_id e w in
  fst run = Ret (Response (jsonify [("error", PStr "Contact not found")]) 404)
  /\ http_log (snd run) = http_log w
  /\ db_rows (snd run) = db_rows w
  /\ db_conns (snd run) = S (db_conns w)
  /\ db_open (snd run) = db_open w.
Proof.
  intros Hfault Hfind run.
  assert (Hrun_def : api_validate_single_address contact_id e w = run)
    by reflexivity.
  clearbody run. revert Hrun_def. unfold api_validate_single_address.
  rewrite handle_db_errors_run. unfold api_validate_single_address_body.
  unfold bind at 1, ask.
  destruct (fetch_contacts_run e w Hfault) as (lc & locs & w1 & Hrun & Hf).
  pose proof (fetched_open _ _ _ _ Hf) as Hopen.
  destruct (fetched_frame _ _ _ _ Hf) as (Hdb & _ & _ & _ & Hlog & Hconns & _).
  destruct Hf as (_ & Hlist & Hdicts & _).
  rewrite (bind_ret_run _ _ _ _ _ _ Hrun).
  rewrite <- Hdb in Hdicts.
  rewrite (bind_ret_run _ _ _ _ _ _
             (find_contact_run contact_id e w1 lc locs Hlist Hdicts)).
  rewrite Hdb, Hfind. unfold bind, truthy, py_truthy.
  cbn [negb ret]. intros <-. cbn [fst snd]. repeat split; assumption.
Qed.

Lemma validate_single_unknown_id_witness :
  fst (api_validate_single_address 42 Sample.env0
         (Sample.world0 [Sample.ada; Sample.bob]))
  = Ret (Response (jsonify [("error", PStr "Contact not found")]) 404).
Proof.
  now destruct (validate_single_unknown_id 42 Sample.env0
                  (Sample.world0 [Sample.ada; Sample.bob]) eq_refl eq_refl)
    as [-> _].
Defined.

(** X10. [POST /api/validate/<id>] validates the address of the first row,
    in store order, that has the id: with credentials configured it sends
    exactly one request, the one for that row.  When the store accepts the
    update it answers 200 with the record of that row, now carrying the
    status of the answer, and every row with the id gets that status in
    its column [valid]; a transport failure of the validator is
    such a status, "Validation Failed", and not an error.  When the store
    refuses the update it answers 500 and the table is as it was, the
    request having been sent all the same. *)
Theorem validate_single_first_match contact_id e w i r :
  configured e ->
  read_fault e (db_conns w) = None ->
  list_find (fun r => row_id r = contact_id) (db_rows w) = Some (i, r) ->
  let answer := http_get e (length (http_log w)) (row_request e r) in
  documented_answer answer ->
  let run := api_validate_single_address contact_id e w in
  http_log (snd run) = (http_log w ++ [row_request e r])%list
  /\ match write_fault e (S (db_conns w)) with
     | None =>
         (exists l,
            fst run
            = Ret (Response
                     (jsonify [("message", PStr "Address validation completed");
                               ("contact", PRef l)])
                     200)
            /\ heap (snd run) !! l
               = Some (ODict (<["valid" := documented_status answer]>
                                (row_dict r))))
         /\ db_rows (snd run)
            = sql_update (PInt contact_id) (documented_status answer) (db_rows w)
         /\ (forall x, answer = NetRaise x ->
             documented_status answer = PStr "Validation Failed")
     | Some x =>
         (exists resp, fst run = Ret resp /\ resp_status resp = 500%Z)
         /\ db_rows (snd run) = db_rows w
     end.
Proof.
  intros Hcfg Hfault Hfind answer Hdoc. cbv zeta.
  destruct (api_validate_single_address_run contact_id e w i r
              (documented_status answer)
              (fun lg => (lg ++ [row_request e r])%list) Hfault Hfind)
    as (Hlog & _ & Hcases).
  { intros w1 Hlog1.
    rewrite (validate_address_smarty_documented _ _ _ _ e w1 Hcfg);
      fold (row_request e r); rewrite Hlog1; [reflexivity | exact Hdoc]. }
  split; [exact Hlog |].
  destruct (write_fault e (S (db_conns w))) as [x |].
  - destruct Hcases as [-> Hrows]. split; [eauto | exact Hrows].
  - destruct Hcases as (l & -> & Hrows & Hl). split; [eauto |].
    split; [exact Hrows |]. intros x ->. reflexivity.
Qed.

Lemma validate_single_first_match_witness :
  let run :=
    api_validate_single_address 2 Sample.env_timeout_second
      (World [Sample.ada; Sample.bob] 0 0
         [row_request Sample.env_timeout_second Sample.ada]
         Sample.templates0 ∅ 0 ∅) in
  map row_valid (db_rows (snd run)) = [PNone; PStr "Validation Failed"].
Proof.
  pose proof (validate_single_first_match 2 Sample.env_timeout_second
                (World [Sample.ada; Sample.bob] 0 0
                   [row_request Sample.env_timeout_second Sample.ada]
                   Sample.templates0 ∅ 0 ∅) 1%nat Sample.bob) as H.
  destruct H as (_ & H).
  - split; reflexivity.
  - reflexivity.
  - reflexivity.
  - reflexivity.
  - cbv zeta. change (write_fault Sample.env_timeout_second _) with (@None exn) in H.
    destruct H as (_ & -> & _). reflexivity.
Defined.

(** X11. [GET /api/health] never raises and always answers with status
    200.  It reports "healthy" exactly when a connection to the store can
    be opened, and otherwise "unhealthy" with the text of the error; a
    store that accepts connections and then fails its queries is reported
    healthy.  The probe makes one connection attempt and leaves no
    connection open. *)
Theorem health_check_reports_connectivity now_iso e w :
  let run := health_check now_iso e w in
  db_open (snd run) = db_open w
  /\ db_conns (snd run) = S (db_conns w)
  /\ db_rows (snd run) = db_rows w
  /\ fst run
     = Ret (Response
              (jsonify
                 match db_fault e (db_conns w) with
                 | Some (AtConnect, x) =>
                     [("status", PStr "unhealthy");
                      ("database", PStr ("error: " ++ exn_msg x));
                      ("timestamp", PStr now_iso);
                      ("version", PStr "1.0.0")]
                 | _ =>
                     [("status", PStr "healthy");
                      ("database", PStr "healthy");
                      ("timestamp", PStr now_iso);
                      ("version", PStr "1.0.0")]
                 end)
              200).
Proof.
  intros run.
  assert (Hrun_def : health_check now_iso e w = run) by reflexivity.
  clearbody run. revert Hrun_def.
  unfold health_check, health_db_status, get_db_connection. run_model.
  destruct (db_fault e (db_conns w)) as [[[| |] x] |];
    try destruct (is_psycopg2_error x); run_model;
    intros <-; cbn [fst snd db_open db_conns db_rows set_db_open set_db_conns];
    repeat split.
Qed.

Lemma py_len_frame v e w : snd (py_len v e w) = w.
Proof.
  unfold py_len. destruct v as [| | | | | | | l]; try reflexivity.
  now destruct (heap w !! l) as [[fields | items] |].
Qed.

(** With credentials, the call leaves the world as it was but for the one
    request added to the log, whatever the network answers. *)
Lemma validate_with_credentials_world
    address city state zipcode auth_id auth_token e w :
  py_truthy (heap w) auth_id = true ->
  py_truthy (heap w) auth_token = true ->
  snd (validate_address_smarty address city state zipcode auth_id auth_token
         e w)
  = set_http_log
      (http_log w
       ++ [smarty_request address city state zipcode auth_id auth_token])
      w.
Proof.
  intros Hid Htoken. rewrite validate_with_credentials by assumption.
  unfold try_except, bind at 1, requests_get.
  fold smarty_url. fold (smarty_params address city state zipcode auth_id auth_token).
  set (w1 := set_http_log _ w).
  destruct (http_get e _ _) as [x | status body].
  - destruct (is_request_exception x); reflexivity.
  - cbn [fst]. destruct (status =? 200)%Z; [| reflexivity].
    unfold bind at 1, response_json. cbn [snd].
    destruct body as [data | x]; [| destruct (is_request_exception x); reflexivity].
    unfold bind at 1, truthy.
    destruct (py_truthy (heap w1) data).
    + unfold bind at 1. unfold bind at 1.
      pose proof (py_len_frame data e w1) as Hframe.
      destruct (py_len data e w1) as [[n | x] w2]; cbn [snd] in Hframe; subst w2.
      * unfold ret. now destruct (0 <? n)%nat.
      * now destruct (is_request_exception x).
    + reflexivity.
Qed.

(** X12. With both credentials truthy, [validate_address_smarty] sends
    exactly one request, whatever the network answers and whether the call
    returns or raises: a GET of the street-address URL with a timeout of 10
    and the six parameters.  It never retries, and it changes nothing else
    in the world. *)
Theorem validate_address_smarty_single_request
    address city state zipcode auth_id auth_token e w :
  py_truthy (heap w) auth_id = true ->
  py_truthy (heap w) auth_token = true ->
  snd (validate_address_smarty address city state zipcode auth_id auth_token
         e w)
  = set_http_log
      (http_log w
       ++ [HttpRequest "https://us-street.api.smartystreets.com/street-address"
             [("auth-id", auth_id); ("auth-token", auth_token);
              ("street", address); ("city", city); ("state", state);
              ("zipcode", zipcode)]
             10])
      w.
Proof.
  intros Hid Htoken.
  rewrite (validate_with_credentials_world address city state zipcode
             auth_id auth_token e w Hid Htoken).
  unfold smarty_request, smarty_url, smarty_params. reflexivity.
Qed.

Lemma validate_address_smarty_single_request_witness :
  http_log
    (snd (validate_address_smarty (PStr "1 Main St") (PStr "Richmond")
            (PStr "VA") (PStr "23219") (PStr "id") (PStr "token")
            Sample.env_number_body (Sample.world0 [])))
  = [smarty_request (PStr "1 Main St") (PStr "Richmond") (PStr "VA")
       (PStr "23219") (PStr "id") (PStr "token")].
Proof.
  rewrite (validate_address_smarty_single_request (PStr "1 Main St")
             (PStr "Richmond") (PStr "VA") (PStr "23219") (PStr "id")
             (PStr "token") Sample.env_number_body (Sample.world0 [])
             eq_refl eq_refl).
  reflexivity.
Defined.

(** X13. [GET /api/config] answers 200 with the three template settings
    and one boolean, and with neither credential.  The boolean
    [smarty_configured] tells what the validator will do: when it is false
    a validation with the configured credentials answers "Not Validated"
    at once, when it is true the validation goes to the network. *)
Theorem api_config_flag_matches_validator address city state zipcode e w :
  exists flag,
    api_config e w
    = (Ret (Response
              (jsonify [("template_style", PStr (TEMPLATE_STYLE (cfg e)));
                        ("templates_dir", PStr (TEMPLATES_DIR (cfg e)));
                        ("output_dir", PStr (OUTPUT_DIR (cfg e)));
                        ("smarty_configured", PBool flag)])
              200), w)
    /\ let run :=
         validate_address_smarty address city state zipcode
           (config_value (SMARTY_AUTH_ID (cfg e)))
           (config_value (SMARTY_AUTH_TOKEN (cfg e))) e w in
       if flag
       then http_log (snd run)
            = (http_log w
               ++ [smarty_request address city state zipcode
                     (config_value (SMARTY_AUTH_ID (cfg e)))
                     (config_value (SMARTY_AUTH_TOKEN (cfg e)))])%list
       else run = (Ret (PStr "Not Validated"), w).
Proof.
  eexists. split; [reflexivity |]. cbv zeta. unfold py_and.
  destruct (py_truthy (heap w) (config_value (SMARTY_AUTH_ID (cfg e)))) eqn:Hid.
  - destruct (py_truthy (heap w) (config_value (SMARTY_AUTH_TOKEN (cfg e))))
      eqn:Htoken.
    + now rewrite (validate_with_credentials_world _ _ _ _ _ _ e w Hid Htoken).
    + apply validate_skips_without_credentials. now right.
  - rewrite Hid. apply validate_skips_without_credentials. now left.
Qed.

(** X14. [GET /api/templates] lists modern, dark, neon and retro, in that
    order, and the configured default.  Each listed name is a style that
    resolves to itself, without a random draw, and whose template file is
    the name followed by "_template.html"; "random" is not listed. *)
Theorem listed_styles_have_their_own_template e w :
  fst (api_template_styles e w)
  = Ret (Response
           (jsonify [("template_styles",
                      PList [PStr "modern"; PStr "dark"; PStr "neon";
                             PStr "retro"]);
                     ("default", PStr (TEMPLATE_STYLE (cfg e)))])
           200)
  /\ style_names = ["modern"; "dark"; "neon"; "retro"]
  /\ ("random" ∉ style_names)
  /\ forall s, s ∈ style_names ->
       select_template_style (PStr s) e w = (Ret (PStr s), w)
       /\ template_filename s = s ++ "_template.html"
       /\ forall dir,
            load_template (PStr s) dir e w
            = (let* found := os_path_exists (path_join dir (s ++ "_template.html")) in
               if negb found then
                 raise (Exn FileNotFoundError
                          ("Template file not found: "
                           ++ path_join dir (s ++ "_template.html")))
               else read_text_file (path_join dir (s ++ "_template.html"))) e w.
Proof.
  split; [reflexivity |]. split; [reflexivity |].
  split.
  { intros Hin. apply style_names_not_random in Hin. now apply Hin. }
  intros s Hs. pose proof (style_names_not_random s Hs) as Hnr.
  assert (Hfile : template_filename s = s ++ "_template.html").
  { apply style_names_cases in Hs as [-> | [-> | [-> | ->]]]; reflexivity. }
  split.
  { apply select_template_style_given. cbn [py_eq_str]. now apply String.eqb_neq. }
  split; [exact Hfile |].
  intros dir. rewrite load_template_named, Hfile. reflexivity.
Qed.

Lemma listed_styles_have_their_own_template_witness :
  template_filename "neon" = "neon_template.html".
Proof.
  destruct (listed_styles_have_their_own_template Sample.env0 (Sample.world0 []))
    as (_ & _ & _ & H).
  destruct (H "neon") as (_ & Hfile & _); [| exact Hfile].
  apply style_names_cases. tauto.
Defined.

(** ** The validator on other answers *)

Lemma truthy_has_len_positive h v :
  by_value v -> has_len v = true -> py_truthy h v = true ->
  exists n, (forall e w, py_len v e w = (Ret n, w)) /\ (0 <? n)%nat = true.
Proof.
  intros Hv Hlen Htruthy. destruct v as [| | | | s | items | entries |];
    try discriminate; try contradiction.
  - exists (String.length s). split; [reflexivity |].
    destruct s; [discriminate | reflexivity].
  - exists (length items). split; [reflexivity |].
    destruct items; [discriminate | reflexivity].
  - exists (length entries). split; [reflexivity |].
    destruct entries; [discriminate | reflexivity].
Qed.

(** X15. With credentials, what [validate_address_smarty] does with a 200
    response outside the documented shape.  A body that does not decode:
    "Validation Failed" when the decoding error is a
    [requests.RequestException], and otherwise the error escapes.  A body
    that decodes to a falsy value ([null], [false], 0, the empty string or
    object): [False].  A non-empty string or object: returned as it is,
    like a non-empty array, the length test never failing for a truthy
    value.  A non-zero number or [true]: a [TypeError] escapes, since a
    number has no length.  An exception of [requests.get] that is no
    [RequestException] escapes as well. *)
Theorem validate_address_smarty_undocumented_answers
    address city state zipcode auth_id auth_token e w :
  py_truthy (heap w) auth_id = true ->
  py_truthy (heap w) auth_token = true ->
  let answer :=
    http_get e (length (http_log w))
      (smarty_request address city state zipcode auth_id auth_token) in
  let result :=
    fst (validate_address_smarty address city state zipcode auth_id auth_token
           e w) in
  match answer with
  | NetRaise x =>
      result = if is_request_exception x
               then Ret (PStr "Validation Failed") else Raise x
  | NetResponse status (Raise x) =>
      status = 200%Z ->
      result = if is_request_exception x
               then Ret (PStr "Validation Failed") else Raise x
  | NetResponse status (Ret data) =>
      status = 200%Z -> by_value data ->
      result = if py_truthy (heap w) data
               then if has_len data then Ret data
                    else Raise (Exn TypeError "object has no len()")
               else Ret (PBool false)
  end.
Proof.
  intros Hid Htoken answer result.
  assert (Hanswer : http_get e (length (http_log w))
                      (smarty_request address city state zipcode auth_id
                         auth_token) = answer) by reflexivity.
  assert (Hresult : fst (validate_address_smarty address city state zipcode
                           auth_id auth_token e w) = result) by reflexivity.
  clearbody answer result. revert Hresult.
  rewrite validate_with_credentials by assumption.
  unfold try_except, bind at 1, requests_get.
  fold (smarty_request address city state zipcode auth_id auth_token).
  rewrite Hanswer. set (w1 := set_http_log _ w).
  destruct answer as [x | status [data | x]].
  - intros <-. now destruct (is_request_exception x).
  - intros <- -> Hdata. cbn [fst Z.eqb Pos.eqb].
    unfold bind at 1, response_json. cbn [snd].
    unfold bind at 1, truthy. change (heap w1) with (heap w).
    destruct (py_truthy (heap w) data) eqn:Htruthy; [| reflexivity].
    destruct (has_len data) eqn:Hlen.
    + destruct (truthy_has_len_positive (heap w) data Hdata Hlen Htruthy)
        as (n & Hrun & Hpos).
      unfold bind at 1. unfold bind at 1. rewrite Hrun. unfold ret.
      now rewrite Hpos.
    + destruct data; try discriminate; try contradiction; reflexivity.
  - intros <- ->. cbn [fst Z.eqb Pos.eqb].
    unfold bind at 1, response_json. cbn [snd].
    now destruct (is_request_exception x).
Qed.

Lemma validate_address_smarty_undocumented_answers_witness :
  fst (validate_address_smarty (PStr "1 Main St") (PStr "Richmond")
         (PStr "VA") (PStr "23219") (PStr "id") (PStr "token")
         Sample.env_number_body (Sample.world0 []))
  = Raise (Exn TypeError "object has no len()").
Proof.
  pose proof (validate_address_smarty_undocumented_answers
                (PStr "1 Main St") (PStr "Richmond") (PStr "VA")
                (PStr "23219") (PStr "id") (PStr "token")
                Sample.env_number_body (Sample.world0 []) eq_refl eq_refl) as H.
  exact (H eq_refl I).
Defined.

(** ** [prepare_contact_data] on other lists *)

Lemma foldl_restyle_not_a_record items : forall h v,
  Forall (is_contact h) items ->
  not_a_record h v ->
  not_a_record (foldl restyle h items) v.
Proof.
  intros h v Hall Hbad. destruct v as [| | | | | | | l]; try exact Hbad.
  unfold not_a_record in *.
  destruct (ref_in_dec items l) as [Hin | Hout].
  - rewrite Forall_forall in Hall.
    destruct (Hall _ Hin) as (l' & fields & [= <-] & Hl).
    now rewrite Hl in Hbad.
  - destruct (foldl_restyle_lookup items h l) as [Hsame _].
    now rewrite Hsame.
Qed.

Lemma style_contact_not_a_record v e w :
  not_a_record (heap w) v ->
  style_contact v e w
  = (Raise (Exn AttributeError "object has no attribute 'get'"), w).
Proof.
  intros Hbad. unfold style_contact, bind at 1, py_get.
  destruct v as [| | | | | | | l]; try reflexivity; try contradiction.
  unfold not_a_record in Hbad.
  now destruct (heap w !! l) as [[fields | items] |].
Qed.

(** X16. [prepare_contact_data] does not roll back: when an element of the
    list is no dict, the call raises an [AttributeError] at that element,
    the records before it keep the three attributes they were given, and
    the elements after it are not visited.  On an empty list the call
    returns the list and changes nothing. *)
Theorem prepare_contact_data_stops_at_non_record e w lc before bad after :
  heap w !! lc = Some (OList (before ++ bad :: after)) ->
  Forall (is_contact (heap w)) before ->
  not_a_record (heap w) bad ->
  prepare_contact_data (PRef lc) e w
  = (Raise (Exn AttributeError "object has no attribute 'get'"),
     set_heap (foldl restyle (heap w) before) w)
  /\ (forall l fields, PRef l ∈ before -> heap w !! l = Some (ODict fields) ->
      foldl restyle (heap w) before !! l = Some (ODict (with_attributes fields)))
  /\ (forall l, PRef l ∉ before -> foldl restyle (heap w) before !! l = heap w !! l)
  /\ (forall lc', heap w !! lc' = Some (OList []) ->
      prepare_contact_data (PRef lc') e w = (Ret (PRef lc'), w)).
Proof.
  intros Hlc Hall Hbad. split; [| split; [| split]].
  - unfold prepare_contact_data. unfold bind at 1, py_iter. rewrite Hlc.
    unfold bind at 1. rewrite for_each_app. unfold bind at 1.
    rewrite (for_each_style_contact_run before e w Hall).
    cbn [for_each]. unfold bind at 1.
    rewrite style_contact_not_a_record; [reflexivity |].
    cbn [heap set_heap]. now apply foldl_restyle_not_a_record.
  - intros l fields Hin Hl. now apply foldl_restyle_lookup.
  - intros l Hout. now apply foldl_restyle_lookup.
  - intros lc' Hempty.
    rewrite (prepare_contact_data_run e w lc' []); [| split; [exact Hempty | constructor]].
    cbn [foldl]. unfold set_heap. now rewrite world_eta.
Qed.

Lemma prepare_contact_data_stops_at_non_record_witness :
  fst (prepare_contact_data (PRef 0) Sample.env0
         (World [] 0 0 [] ∅ ∅ 0
            (<[0%nat := OList [PRef 1; PNone; PRef 2]]> Sample.heap1)))
  = Raise (Exn AttributeError "object has no attribute 'get'").
Proof.
  destruct (prepare_contact_data_stops_at_non_record Sample.env0
              (World [] 0 0 [] ∅ ∅ 0
                 (<[0%nat := OList [PRef 1; PNone; PRef 2]]> Sample.heap1))
              0%nat [PRef 1] PNone [PRef 2]) as (Hrun & _).
  - reflexivity.
  - repeat constructor. exists 1%nat, (row_dict Sample.ada). split; reflexivity.
  - exact I.
  - now rewrite Hrun.
Defined.

(** ** Files written by the generator *)







(** ** Other request bodies and styles *)

(** X19. What [POST /api/generate] does with a request body that is no
    JSON object.  A falsy body (an empty array or string, 0, [false]) is
    served exactly like an absent one, with the defaults.  A truthy body
    (a non-empty array or string, a non-zero number, [true]) has no [get]:
    the answer is 500 "Internal server error" and nothing has happened,
    the store has not even been contacted.  When [get_json()] itself
    raises, the answer is 500 as well. *)
Theorem generate_body_that_is_no_object body e w :
  by_value body ->
  (forall entries, body <> PDict entries) ->
  (if py_truthy (heap w) body
   then api_generate_html (Ret body) e w
        = (Ret (Response (jsonify [("error", PStr "Internal server error")])
                  500), w)
   else api_generate_html (Ret body) e w = api_generate_html (Ret PNone) e w)
  /\ forall x,
       api_generate_html (Raise x) e w
       = (Ret (Response
                 (jsonify [("error",
                            PStr (if is_psycopg2_error x
                                  then "Database connection failed"
                                  else "Internal server error"))])
                 500), w).
Proof.
  intros Hvalue Hobject. split.
  - rewrite !api_generate_html_run.
    unfold api_generate_html_body, bind, ask, request_get_json, truthy.
    destruct body as [| b | n | f | s | items | entries | l];
      try contradiction; cbn [py_truthy].
    + reflexivity.
    + destruct b; reflexivity.
    + destruct (n =? 0)%Z; reflexivity.
    + destruct (float_is_zero f); reflexivity.
    + destruct (String.eqb s ""); reflexivity.
    + destruct items; reflexivity.
    + now destruct (Hobject entries).
  - intros x. now rewrite api_generate_html_run.
Qed.

Lemma generate_body_that_is_no_object_witness :
  api_generate_html (Ret (PList [PStr "dark"])) Sample.env0
    (Sample.world0 [Sample.ada])
  = (Ret (Response (jsonify [("error", PStr "Internal server error")]) 500),
     Sample.world0 [Sample.ada]).
Proof.
  destruct (generate_body_that_is_no_object (PList [PStr "dark"]) Sample.env0
              (Sample.world0 [Sample.ada]) I) as [H _].
  - intros entries. discriminate.
  - exact H.
Defined.

(** X20. A requested style that is no string.  [None], a boolean or a
    number equals none of the style names: it is selected as it is and the
    modern template is loaded for it, as for an unrecognized name.  A list
    or a dict cannot be a dictionary key: [load_template] raises a
    [TypeError] before it looks at any file, so [generate_html_file] does
    not return and writes nothing. *)
Theorem style_that_is_no_string style dir contacts output_filename e w :
  by_value style ->
  (forall s, style <> PStr s) ->
  select_template_style style e w = (Ret style, w)
  /\ if match style with PList _ | PDict _ => true | _ => false end
     then load_template style dir e w
          = (Raise (Exn TypeError "unhashable type"), w)
          /\ (exists x w',
                generate_html_file contacts style output_filename e w
                = (Raise x, w')
                /\ files w' = files w)
     else load_template style dir e w = load_template (PStr "modern") dir e w.
Proof.
  intros Hvalue Hstring.
  assert (Hsel : select_template_style style e w = (Ret style, w)).
  { apply select_template_style_given. destruct style; try reflexivity.
    now destruct (Hstring s). }
  split; [exact Hsel |].
  destruct style as [| b | n | f | s | items | entries | l];
    try reflexivity; try contradiction.
  - now destruct (Hstring s).
  - split; [reflexivity |].
    unfold generate_html_file. unfold bind at 1, ask. unfold bind at 1.
    destruct (os_makedirs (OUTPUT_DIR (cfg e)) e w) as [[[] | x] w1] eqn:Hmk.
    + assert (Hfiles : files w1 = files w).
      { unfold os_makedirs in Hmk. destruct (fs_fault e _); [discriminate |].
        destruct (files w !! _); [discriminate |]. now injection Hmk as <-. }
      exists (Exn TypeError "unhashable type"), w1. split; [| exact Hfiles].
      reflexivity.
    + assert (Hfiles : w1 = w).
      { unfold os_makedirs in Hmk. destruct (fs_fault e _); [congruence |].
        destruct (files w !! _); [congruence | discriminate]. }
      exists x, w1. split; [reflexivity | now rewrite Hfiles].
  - split; [reflexivity |].
    unfold generate_html_file. unfold bind at 1, ask. unfold bind at 1.
    destruct (os_makedirs (OUTPUT_DIR (cfg e)) e w) as [[[] | x] w1] eqn:Hmk.
    + assert (Hfiles : files w1 = files w).
      { unfold os_makedirs in Hmk. destruct (fs_fault e _); [discriminate |].
        destruct (files w !! _); [discriminate |]. now injection Hmk as <-. }
      exists (Exn TypeError "unhashable type"), w1. split; [| exact Hfiles].
      reflexivity.
    + assert (Hfiles : w1 = w).
      { unfold os_makedirs in Hmk. destruct (fs_fault e _); [congruence |].
        destruct (files w !! _); [congruence | discriminate]. }
      exists x, w1. split; [reflexivity | now rewrite Hfiles].
Qed.

Lemma style_that_is_no_string_witness :
  load_template (PList [PStr "dark"]) "templates" Sample.env0 Sample.world1
  = (Raise (Exn TypeError "unhashable type"), Sample.world1).
Proof.
  destruct (style_that_is_no_string (PList [PStr "dark"]) "templates" (PRef 0)
              (PStr "index.html") Sample.env0 Sample.world1 I) as [_ [H _]].
  - intros s. discriminate.
  - exact H.
Defined.






(** ** Random selection *)

(** X23. The random choice can reach each of the four styles and nothing
    else: the style selected for "random" is decided by the draw modulo
    four, in the order modern, dark, neon, retro, and the call consumes
    exactly that one draw. *)
Theorem random_selection_reaches_every_style e w :
  select_template_style (PStr "random") e w
  = (Ret (PStr (match (random_draw e (rng_calls w) mod 4)%nat with
                | 0%nat => "modern"
                | 1%nat => "dark"
                | 2%nat => "neon"
                | _ => "retro"
                end)),
     set_rng_calls (S (rng_calls w)) w)
  /\ forall s, s ∈ style_names ->
       exists k, (k < 4)%nat
         /\ forall e' w', random_draw e' (rng_calls w') = k ->
              fst (select_template_style (PStr "random") e' w') = Ret (PStr s).
Proof.
  assert (Hsel : forall e0 w0,
    select_template_style (PStr "random") e0 w0
    = (Ret (PStr (match (random_draw e0 (rng_calls w0) mod 4)%nat with
                  | 0%nat => "modern"
                  | 1%nat => "dark"
                  | 2%nat => "neon"
                  | _ => "retro"
                  end)),
       set_rng_calls (S (rng_calls w0)) w0)).
  { intros e0 w0. rewrite select_template_style_run.
    unfold resolved_style, advance_rng, drawn_style.
    cbn [py_eq_str String.eqb Ascii.eqb Bool.eqb andb style_names map fst
         get_template_files length].
    pose proof (Nat.mod_upper_bound (random_draw e0 (rng_calls w0)) 4) as Hlt.
    destruct (random_draw e0 (rng_calls w0) mod 4)%nat as [| [| [| [| n]]]];
      try reflexivity. lia. }
  split; [apply Hsel |].
  intros s Hs. apply style_names_cases in Hs as [-> | [-> | [-> | ->]]];
    [exists 0%nat | exists 1%nat | exists 2%nat | exists 3%nat];
    (split; [lia |]); intros e' w' Hdraw; now rewrite Hsel, Hdraw.
Qed.

Lemma random_selection_reaches_every_style_witness :
  exists k, (k < 4)%nat
    /\ forall e' w', random_draw e' (rng_calls w') = k ->
         fst (select_template_style (PStr "random") e' w') = Ret (PStr "neon").
Proof.
  destruct (random_selection_reaches_every_style Sample.env0 (Sample.world0 []))
    as [_ H].
  apply (H "neon"). apply style_names_cases. tauto.
Defined.

(** ** What [POST /api/validate] answers with *)



